(** * MqttClient: broker-locator handling and protocol negotiation

    A shallow embedding of [src/MqttClient.cpp] (class [MqttClient] and the
    global [mqtt_event_handler]) together with the locator helpers of
    [UriUtils.h] that the client calls.

    Conventions of the embedding:
    - a nullable [char*] is an [option string] ([None] is [nullptr]);
    - [uint16_t], [int] and [size_t] values are [Z] with the conversions the
      code performs written out;
    - the external MQTT engine (esp-mqtt) is an interface, [Engine]: its
      internal state is an abstract [World] and every call the client makes
      is recorded, in order, as an observation;
    - a member function is a computation [Action A]: it takes the system
      state and either returns a value, the new state and the observations
      it produced, or it is [Undefined] (the C++ program dereferences a
      null pointer);
    - an application callback is a name, and invoking it is an
      observation; what the application does inside it is not modelled;
    - [Serial] logging and [millis()] have no influence on the client and
      are left out; text is free of NUL characters. *)

From Stdlib Require Import ZArith List String Ascii Bool Lia.
From Stdlib.Strings Require Import Byte.
From Stdlib Require Import Decimal DecimalString DecimalN.
Import ListNotations.

Local Open Scope string_scope.
Local Open Scope Z_scope.

(* ================================================================== *)
(** ** Text helpers *)

Module Text.

Definition is_slash (c : ascii) : bool := Ascii.eqb c "/".
Definition is_colon (c : ascii) : bool := Ascii.eqb c ":".
Definition is_at (c : ascii) : bool := Ascii.eqb c "@".

(** Characters that end the host part of an authority. *)
Definition is_delim (c : ascii) : bool := is_slash c || is_colon c || is_at c.

Definition is_empty (s : string) : bool :=
  match s with EmptyString => true | String _ _ => false end.

(** [break p s] splits [s] in front of the first character accepted by [p]. *)
Fixpoint break (p : ascii -> bool) (s : string) : string * string :=
  match s with
  | EmptyString => (EmptyString, EmptyString)
  | String c r =>
      if p c then (EmptyString, s)
      else let '(a, b) := break p r in (String c a, b)
  end.

Fixpoint forall_chars (p : ascii -> bool) (s : string) : bool :=
  match s with
  | EmptyString => true
  | String c r => p c && forall_chars p r
  end.

Definition free_of (p : ascii -> bool) (s : string) : bool :=
  forall_chars (fun c => negb (p c)) s.

(** [s] is empty or begins with a character accepted by [p]. *)
Definition starts_with (p : ascii -> bool) (s : string) : bool :=
  match s with EmptyString => true | String c _ => p c end.

(** Text that follows the last ['@'], when there is one. *)
Fixpoint after_last_at (s : string) : option string :=
  match s with
  | EmptyString => None
  | String c r =>
      match after_last_at r with
      | Some t => Some t
      | None => if is_at c then Some r else None
      end
  end.

(** The text behind a leading ["//"]. *)
Definition after_slashes (s : string) : option string :=
  match s with
  | String a (String b rest) =>
      if is_slash a && is_slash b then Some rest else None
  | _ => None
  end.

(** Splits at the first occurrence of ["://"]. *)
Fixpoint split_scheme (s : string) : option (string * string) :=
  match s with
  | EmptyString => None
  | String c r =>
      match (if is_colon c then after_slashes r else None) with
      | Some rest => Some (EmptyString, rest)
      | None =>
          match split_scheme r with
          | Some (a, b) => Some (String c a, b)
          | None => None
          end
      end
  end.

Definition lower_char (c : ascii) : ascii :=
  let n := nat_of_ascii c in
  if (Nat.leb 65 n && Nat.leb n 90)%bool then ascii_of_nat (n + 32) else c.

Fixpoint lower (s : string) : string :=
  match s with
  | EmptyString => EmptyString
  | String c r => String (lower_char c) (lower r)
  end.

(** Decimal text of a number, and its inverse on non-empty digit strings. *)
Definition decimal (n : Z) : string :=
  NilZero.string_of_uint (N.to_uint (Z.to_N n)).

Definition of_decimal (s : string) : option Z :=
  match NilZero.uint_of_string s with
  | Some d => Some (Z.of_N (N.of_uint d))
  | None => None
  end.

End Text.

(* ================================================================== *)
(** ** UriUtils.h: [UriParts], [parseMqttUri], [buildMqttUri] *)

Module UriUtils.
Import Text.

(** Modelled from the spec: the struct [UriParts] of [UriUtils.h] is absent
    from src/.  Its four fields and two queries are the ones
    [MqttClient.cpp] uses ([parts.scheme], [parts.host], [parts.port],
    [parts.path], [isWebSocket()], [isSecure()]); the scheme is held as its
    canonical text, one of mqtt, mqtts, ws, wss (the spec's TransportParts
    scheme: plain, secure, websocket-plain, websocket-secure). *)
Record UriParts : Type := mkUriParts {
  scheme : string;
  host : string;
  port : Z;
  path : string
}.

Definition isWebSocket (p : UriParts) : bool :=
  String.eqb (scheme p) "ws" || String.eqb (scheme p) "wss".

Definition isSecure (p : UriParts) : bool :=
  String.eqb (scheme p) "mqtts" || String.eqb (scheme p) "wss".

(** Modelled from the spec: recognised schemes, compared without regard to
    case: mqtt, mqtts, ws, wss; anything else is not a scheme. *)
Definition scheme_of_text (s : string) : option string :=
  let l := lower s in
  if String.eqb l "mqtt" then Some "mqtt"
  else if String.eqb l "mqtts" then Some "mqtts"
  else if String.eqb l "ws" then Some "ws"
  else if String.eqb l "wss" then Some "wss"
  else None.

(** Modelled from the spec: the scheme text chosen from the transport
    flags. *)
Definition scheme_text (secure websocket : bool) : string :=
  if secure then (if websocket then "wss" else "mqtts")
  else (if websocket then "ws" else "mqtt").

(** Modelled from the spec: default port per scheme, 1883 for mqtt and ws,
    8883 for mqtts and wss. *)
Definition default_port (secure : bool) : Z :=
  if secure then 8883 else 1883.

(** Modelled from the spec: a port, when present, is a decimal number that
    fits the port range 1..65535 of the data model. *)
Definition parse_port (s : string) : option Z :=
  match of_decimal s with
  | Some v => if (1 <=? v) && (v <=? 65535) then Some v else None
  | None => None
  end.

(** Modelled from the spec: the path is kept verbatim, an absent path is
    ["/"]. *)
Definition path_or_default (tail : string) : string :=
  if is_empty tail then "/" else tail.

(** Modelled from the spec: credentials in the authority are recognised
    and dropped; they end at the last ['@'] of the authority. *)
Definition strip_credentials (authority : string) : string :=
  match after_last_at authority with
  | Some hostport => hostport
  | None => authority
  end.

(** Modelled from the spec: [parseMqttUri] of [UriUtils.h] is absent from
    src/.  A locator is [scheme://[credentials@]host[:port][/path]];
    a missing separator, an unknown scheme, an empty host or an invalid
    port is a parse error; an absent port is the scheme's default; the path
    after the authority is kept verbatim and an absent path is ["/"];
    credentials are recognised and dropped.  [None] is the [false] result,
    for which the caller's [UriParts] is never read.

    Where the spec is silent: the scheme ends at the first ["://"], the
    authority at the first ['/'], the host at the first [':'] behind the
    credentials, and a ['?'] or ['#'] has no special meaning. *)
Definition parseMqttUri (uri : string) : option UriParts :=
  match split_scheme uri with
  | None => None
  | Some (sch, rest) =>
      match scheme_of_text sch with
      | None => None
      | Some canonical =>
          let '(authority, tail) := break is_slash rest in
          let '(h, porttext) := break is_colon (strip_credentials authority) in
          if is_empty h then None
          else
            let secure :=
              String.eqb canonical "mqtts" || String.eqb canonical "wss" in
            match porttext with
            | EmptyString =>
                Some (mkUriParts canonical h (default_port secure)
                                 (path_or_default tail))
            | String _ digits =>
                match parse_port digits with
                | Some p => Some (mkUriParts canonical h p (path_or_default tail))
                | None => None
                end
            end
      end
  end.

(** Modelled from the spec: [buildMqttUri] of [UriUtils.h] is absent from
    src/.  It emits [scheme://host[:port]path]: the scheme text follows
    the transport flags, and the path is emitted only for a WebSocket
    transport with a non-empty path.  The port is left out when it is the
    scheme's default, as in the spec's scenario where the parts of
    [ws://broker.example.com/mqtt] are built as that same text. *)
Definition buildMqttUri (p : UriParts) : string :=
  scheme_text (isSecure p) (isWebSocket p) ++ "://" ++ host p
  ++ (if port p =? default_port (isSecure p) then "" else ":" ++ decimal (port p))
  ++ (if isWebSocket p && negb (is_empty (path p)) then path p else "").

End UriUtils.


(* ================================================================== *)
(** ** The esp-mqtt engine as seen by the client *)

Module Esp.

Definition esp_mqtt_client_handle_t : Type := nat.

Definition ESP_OK : Z := 0.

(** [#define MQTT_PROTOCOL_V_5 5] of [MqttClient.cpp]; the legacy protocol
    is requested as [static_cast<esp_mqtt_protocol_ver_t>(4)]. *)
Definition MQTT_PROTOCOL_V_5 : Z := 5.
Definition MQTT_PROTOCOL_V_3_1_1 : Z := 4.

(** The event ids [mqtt_event_handler] tells apart; every other id takes
    the [default] branch. *)
Inductive esp_mqtt_event_id_t : Type :=
| MQTT_EVENT_ERROR
| MQTT_EVENT_CONNECTED
| MQTT_EVENT_DISCONNECTED
| MQTT_EVENT_SUBSCRIBED
| MQTT_EVENT_UNSUBSCRIBED
| MQTT_EVENT_PUBLISHED
| MQTT_EVENT_DATA
| MQTT_EVENT_OTHER (event_id : Z).

Record esp_mqtt_error_codes_t : Type := mkErrorCodes {
  error_type : Z;
  esp_tls_last_esp_err : Z;
  esp_transport_sock_errno : Z;
  connect_return_code : Z
}.

Definition MQTT_ERROR_TYPE_TCP_TRANSPORT : Z := 1.
Definition MQTT_ERROR_TYPE_CONNECTION_REFUSED : Z := 2.

(** The fields of [esp_mqtt_event_t] the handler reads.  [topic] and
    [data] are the byte ranges the two pointers refer to. *)
Record esp_mqtt_event_t : Type := mkEvent {
  session_present : Z;
  error_handle : option esp_mqtt_error_codes_t;
  msg_id : Z;
  topic : list byte;
  topic_len : Z;
  data : list byte;
  data_len : Z
}.

(** [esp_mqtt_client_config_t] as [connectWithProtocol] fills it: the
    ESP-IDF 5 layout, flattened.  The ESP-IDF 4 branch stores the same
    values in a flat struct; the branch for builds without
    [ESP_IDF_VERSION_MAJOR] has no protocol field and is not modelled. *)
Record esp_mqtt_client_config_t : Type := mkConfig {
  broker_address_uri : option string;
  broker_address_hostname : option string;
  broker_address_port : Z;
  broker_verification_certificate : option string;
  broker_verification_skip_cert_common_name_check : bool;
  credentials_client_id : option string;
  credentials_username : option string;
  credentials_authentication_password : option string;
  credentials_authentication_certificate : option string;
  credentials_authentication_key : option string;
  session_keepalive : Z;
  session_protocol_ver : Z
}.

(** The engine: an internal state and the nine entry points the client
    calls.  Results the client ignores are not returned. *)
Record Engine : Type := mkEngine {
  World : Type;
  esp_mqtt_client_init :
    esp_mqtt_client_config_t -> World -> option esp_mqtt_client_handle_t * World;
  esp_mqtt_client_register_event : esp_mqtt_client_handle_t -> World -> World;
  esp_mqtt_client_start : esp_mqtt_client_handle_t -> World -> Z * World;
  esp_mqtt_client_stop : esp_mqtt_client_handle_t -> World -> World;
  esp_mqtt_client_destroy : esp_mqtt_client_handle_t -> World -> World;
  esp_mqtt_client_disconnect : esp_mqtt_client_handle_t -> World -> World;
  esp_mqtt_client_publish :
    esp_mqtt_client_handle_t -> option string -> option string ->
    Z -> Z -> Z -> World -> Z * World;
  esp_mqtt_client_subscribe :
    esp_mqtt_client_handle_t -> option string -> Z -> World -> Z * World;
  esp_mqtt_client_unsubscribe :
    esp_mqtt_client_handle_t -> option string -> World -> Z * World
}.

End Esp.

(* ================================================================== *)
(** ** Observations and the computation monad *)

Module Run.
Import Esp.

(** An application callback (a non-empty [std::function]) is known by a
    name; invoking it is an observation. *)
Definition Callback : Type := nat.

Inductive Obs : Type :=
| CallInit (cfg : esp_mqtt_client_config_t) (r : option esp_mqtt_client_handle_t)
| CallRegisterEvent (h : esp_mqtt_client_handle_t)
| CallStart (h : esp_mqtt_client_handle_t) (r : Z)
| CallStop (h : esp_mqtt_client_handle_t)
| CallDestroy (h : esp_mqtt_client_handle_t)
| CallDisconnect (h : esp_mqtt_client_handle_t)
| CallPublish (h : esp_mqtt_client_handle_t) (topic payload : option string)
              (len qos retain r : Z)
| CallSubscribe (h : esp_mqtt_client_handle_t) (topic : option string) (qos r : Z)
| CallUnsubscribe (h : esp_mqtt_client_handle_t) (topic : option string) (r : Z)
| Delay (ms : Z)
| InvokeConnect (cb : Callback)
| InvokeDisconnect (cb : Callback)
| InvokeMessage (cb : Callback) (topic payload : list byte) (length : Z).

Inductive Outcome (S A : Type) : Type :=
| Done (a : A) (s : S) (t : list Obs)
| Undefined.

Arguments Done {S A} a s t.
Arguments Undefined {S A}.

Definition M (S A : Type) : Type := S -> Outcome S A.

Definition ret {S A} (a : A) : M S A := fun s => Done a s [].

Definition bind {S A B} (m : M S A) (f : A -> M S B) : M S B :=
  fun s =>
    match m s with
    | Undefined => Undefined
    | Done a s1 t1 =>
        match f a s1 with
        | Undefined => Undefined
        | Done b s2 t2 => Done b s2 (t1 ++ t2)
        end
    end.

Definition undefined {S A} : M S A := fun _ => Undefined.

Definition emit {S} (o : Obs) : M S unit := fun s => Done tt s [o].

End Run.

Declare Scope run_scope.
Delimit Scope run_scope with run.
Notation "x <- m ;; k" := (Run.bind m (fun x => k))
  (at level 61, m at next level, right associativity) : run_scope.
Notation "m ;; k" := (Run.bind m (fun _ => k))
  (at level 61, right associativity) : run_scope.

(* ================================================================== *)
(** ** class MqttClient *)

Module Client.
Import Esp Run.
Local Open Scope run_scope.

(** The data members of [MqttClient.h], in declaration order. *)
Record MqttClient : Type := mkMqttClient {
  _client : option esp_mqtt_client_handle_t;
  _host : option string;
  _port : Z;
  _path : option string;
  _useWebSocket : bool;
  _secure : bool;
  _uri : option string;
  _username : option string;
  _password : option string;
  _clientId : option string;
  _keepalive : Z;
  _connected : bool;
  _caCert : option string;
  _clientCert : option string;
  _clientKey : option string;
  _skipCertVerify : bool;
  _enableFallback : bool;
  _usingFallback : bool;
  _messageCallback : option Callback;
  _connectCallback : option Callback;
  _disconnectCallback : option Callback
}.

Definition set_client (v : option esp_mqtt_client_handle_t) (c : MqttClient) : MqttClient :=
  mkMqttClient v (_host c) (_port c) (_path c) (_useWebSocket c) (_secure c) (_uri c) (_username c) (_password c) (_clientId c) (_keepalive c) (_connected c) (_caCert c) (_clientCert c) (_clientKey c) (_skipCertVerify c) (_enableFallback c) (_usingFallback c) (_messageCallback c) (_connectCallback c) (_disconnectCallback c).
Definition set_host (v : option string) (c : MqttClient) : MqttClient :=
  mkMqttClient (_client c) v (_port c) (_path c) (_useWebSocket c) (_secure c) (_uri c) (_username c) (_password c) (_clientId c) (_keepalive c) (_connected c) (_caCert c) (_clientCert c) (_clientKey c) (_skipCertVerify c) (_enableFallback c) (_usingFallback c) (_messageCallback c) (_connectCallback c) (_disconnectCallback c).
Definition set_port (v : Z) (c : MqttClient) : MqttClient :=
  mkMqttClient (_client c) (_host c) v (_path c) (_useWebSocket c) (_secure c) (_uri c) (_username c) (_password c) (_clientId c) (_keepalive c) (_connected c) (_caCert c) (_clientCert c) (_clientKey c) (_skipCertVerify c) (_enableFallback c) (_usingFallback c) (_messageCallback c) (_connectCallback c) (_disconnectCallback c).
Definition set_path (v : option string) (c : MqttClient) : MqttClient :=
  mkMqttClient (_client c) (_host c) (_port c) v (_useWebSocket c) (_secure c) (_uri c) (_username c) (_password c) (_clientId c) (_keepalive c) (_connected c) (_caCert c) (_clientCert c) (_clientKey c) (_skipCertVerify c) (_enableFallback c) (_usingFallback c) (_messageCallback c) (_connectCallback c) (_disconnectCallback c).
Definition set_useWebSocket (v : bool) (c : MqttClient) : MqttClient :=
  mkMqttClient (_client c) (_host c) (_port c) (_path c) v (_secure c) (_uri c) (_username c) (_password c) (_clientId c) (_keepalive c) (_connected c) (_caCert c) (_clientCert c) (_clientKey c) (_skipCertVerify c) (_enableFallback c) (_usingFallback c) (_messageCallback c) (_connectCallback c) (_disconnectCallback c).
Definition set_secure (v : bool) (c : MqttClient) : MqttClient :=
  mkMqttClient (_client c) (_host c) (_port c) (_path c) (_useWebSocket c) v (_uri c) (_username c) (_password c) (_clientId c) (_keepalive c) (_connected c) (_caCert c) (_clientCert c) (_clientKey c) (_skipCertVerify c) (_enableFallback c) (_usingFallback c) (_messageCallback c) (_connectCallback c) (_disconnectCallback c).
Definition set_uri (v : option string) (c : MqttClient) : MqttClient :=
  mkMqttClient (_client c) (_host c) (_port c) (_path c) (_useWebSocket c) (_secure c) v (_username c) (_password c) (_clientId c) (_keepalive c) (_connected c) (_caCert c) (_clientCert c) (_clientKey c) (_skipCertVerify c) (_enableFallback c) (_usingFallback c) (_messageCallback c) (_connectCallback c) (_disconnectCallback c).
Definition set_username (v : option string) (c : MqttClient) : MqttClient :=
  mkMqttClient (_client c) (_host c) (_port c) (_path c) (_useWebSocket c) (_secure c) (_uri c) v (_password c) (_clientId c) (_keepalive c) (_connected c) (_caCert c) (_clientCert c) (_clientKey c) (_skipCertVerify c) (_enableFallback c) (_usingFallback c) (_messageCallback c) (_connectCallback c) (_disconnectCallback c).
Definition set_password (v : option string) (c : MqttClient) : MqttClient :=
  mkMqttClient (_client c) (_host c) (_port c) (_path c) (_useWebSocket c) (_secure c) (_uri c) (_username c) v (_clientId c) (_keepalive c) (_connected c) (_caCert c) (_clientCert c) (_clientKey c) (_skipCertVerify c) (_enableFallback c) (_usingFallback c) (_messageCallback c) (_connectCallback c) (_disconnectCallback c).
Definition set_clientId (v : option string) (c : MqttClient) : MqttClient :=
  mkMqttClient (_client c) (_host c) (_port c) (_path c) (_useWebSocket c) (_secure c) (_uri c) (_username c) (_password c) v (_keepalive c) (_connected c) (_caCert c) (_clientCert c) (_clientKey c) (_skipCertVerify c) (_enableFallback c) (_usingFallback c) (_messageCallback c) (_connectCallback c) (_disconnectCallback c).
Definition set_keepalive (v : Z) (c : MqttClient) : MqttClient :=
  mkMqttClient (_client c) (_host c) (_port c) (_path c) (_useWebSocket c) (_secure c) (_uri c) (_username c) (_password c) (_clientId c) v (_connected c) (_caCert c) (_clientCert c) (_clientKey c) (_skipCertVerify c) (_enableFallback c) (_usingFallback c) (_messageCallback c) (_connectCallback c) (_disconnectCallback c).
Definition set_connected (v : bool) (c : MqttClient) : MqttClient :=
  mkMqttClient (_client c) (_host c) (_port c) (_path c) (_useWebSocket c) (_secure c) (_uri c) (_username c) (_password c) (_clientId c) (_keepalive c) v (_caCert c) (_clientCert c) (_clientKey c) (_skipCertVerify c) (_enableFallback c) (_usingFallback c) (_messageCallback c) (_connectCallback c) (_disconnectCallback c).
Definition set_caCert (v : option string) (c : MqttClient) : MqttClient :=
  mkMqttClient (_client c) (_host c) (_port c) (_path c) (_useWebSocket c) (_secure c) (_uri c) (_username c) (_password c) (_clientId c) (_keepalive c) (_connected c) v (_clientCert c) (_clientKey c) (_skipCertVerify c) (_enableFallback c) (_usingFallback c) (_messageCallback c) (_connectCallback c) (_disconnectCallback c).
Definition set_clientCert (v : option string) (c : MqttClient) : MqttClient :=
  mkMqttClient (_client c) (_host c) (_port c) (_path c) (_useWebSocket c) (_secure c) (_uri c) (_username c) (_password c) (_clientId c) (_keepalive c) (_connected c) (_caCert c) v (_clientKey c) (_skipCertVerify c) (_enableFallback c) (_usingFallback c) (_messageCallback c) (_connectCallback c) (_disconnectCallback c).
Definition set_clientKey (v : option string) (c : MqttClient) : MqttClient :=
  mkMqttClient (_client c) (_host c) (_port c) (_path c) (_useWebSocket c) (_secure c) (_uri c) (_username c) (_password c) (_clientId c) (_keepalive c) (_connected c) (_caCert c) (_clientCert c) v (_skipCertVerify c) (_enableFallback c) (_usingFallback c) (_messageCallback c) (_connectCallback c) (_disconnectCallback c).
Definition set_skipCertVerify (v : bool) (c : MqttClient) : MqttClient :=
  mkMqttClient (_client c) (_host c) (_port c) (_path c) (_useWebSocket c) (_secure c) (_uri c) (_username c) (_password c) (_clientId c) (_keepalive c) (_connected c) (_caCert c) (_clientCert c) (_clientKey c) v (_enableFallback c) (_usingFallback c) (_messageCallback c) (_connectCallback c) (_disconnectCallback c).
Definition set_enableFallback (v : bool) (c : MqttClient) : MqttClient :=
  mkMqttClient (_client c) (_host c) (_port c) (_path c) (_useWebSocket c) (_secure c) (_uri c) (_username c) (_password c) (_clientId c) (_keepalive c) (_connected c) (_caCert c) (_clientCert c) (_clientKey c) (_skipCertVerify c) v (_usingFallback c) (_messageCallback c) (_connectCallback c) (_disconnectCallback c).
Definition set_usingFallback (v : bool) (c : MqttClient) : MqttClient :=
  mkMqttClient (_client c) (_host c) (_port c) (_path c) (_useWebSocket c) (_secure c) (_uri c) (_username c) (_password c) (_clientId c) (_keepalive c) (_connected c) (_caCert c) (_clientCert c) (_clientKey c) (_skipCertVerify c) (_enableFallback c) v (_messageCallback c) (_connectCallback c) (_disconnectCallback c).
Definition set_messageCallback (v : option Callback) (c : MqttClient) : MqttClient :=
  mkMqttClient (_client c) (_host c) (_port c) (_path c) (_useWebSocket c) (_secure c) (_uri c) (_username c) (_password c) (_clientId c) (_keepalive c) (_connected c) (_caCert c) (_clientCert c) (_clientKey c) (_skipCertVerify c) (_enableFallback c) (_usingFallback c) v (_connectCallback c) (_disconnectCallback c).
Definition set_connectCallback (v : option Callback) (c : MqttClient) : MqttClient :=
  mkMqttClient (_client c) (_host c) (_port c) (_path c) (_useWebSocket c) (_secure c) (_uri c) (_username c) (_password c) (_clientId c) (_keepalive c) (_connected c) (_caCert c) (_clientCert c) (_clientKey c) (_skipCertVerify c) (_enableFallback c) (_usingFallback c) (_messageCallback c) v (_disconnectCallback c).
Definition set_disconnectCallback (v : option Callback) (c : MqttClient) : MqttClient :=
  mkMqttClient (_client c) (_host c) (_port c) (_path c) (_useWebSocket c) (_secure c) (_uri c) (_username c) (_password c) (_clientId c) (_keepalive c) (_connected c) (_caCert c) (_clientCert c) (_clientKey c) (_skipCertVerify c) (_enableFallback c) (_usingFallback c) (_messageCallback c) (_connectCallback c) v.

(** [MqttClient::MqttClient()] *)
Definition MqttClient_new : MqttClient :=
  mkMqttClient None None 1883 None false false None None None None 30 false
               None None None false false false None None None.

Section WithEngine.
Context {E : Engine}.

(** The client object together with the engine it drives. *)
Record Sys : Type := mkSys {
  obj : MqttClient;
  world : World E
}.

Definition Action (A : Type) : Type := M Sys A.

Definition this : Action MqttClient := fun s => Done (obj s) s [].

Definition assign (f : MqttClient -> MqttClient) : Action unit :=
  fun s => Done tt (mkSys (f (obj s)) (world s)) [].

(** An engine call that returns a value: the engine's state advances and
    the call is observed together with its result. *)
Definition engine {A} (f : World E -> A * World E) (o : A -> Obs) : Action A :=
  fun s => let '(a, w) := f (world s) in Done a (mkSys (obj s) w) [o a].

Definition engine_ (f : World E -> World E) (o : Obs) : Action unit :=
  fun s => Done tt (mkSys (obj s) (f (world s))) [o].

(** [strlen], [strcpy] and the [std::string] constructor read through the
    pointer: on [nullptr] the behaviour is undefined. *)
Definition deref (p : option string) : Action string :=
  match p with
  | Some s => ret s
  | None => undefined
  end.

(** A pointer (or [std::function]) tested as a condition. *)
Definition is_set {A} (p : option A) : bool :=
  match p with Some _ => true | None => false end.

Definition when (b : bool) (m : Action unit) : Action unit :=
  if b then m else ret tt.

(** *** Configuration *)

Definition parseUriComponents (uri : option string) : Action unit :=
  text <- deref uri ;;
  match UriUtils.parseMqttUri text with
  | None => ret tt
  | Some parts =>
      assign (set_host (Some (UriUtils.host parts))) ;;
      assign (set_port (UriUtils.port parts)) ;;
      assign (set_useWebSocket (UriUtils.isWebSocket parts)) ;;
      assign (set_secure (UriUtils.isSecure parts)) ;;
      c <- this ;;
      when (_useWebSocket c) (assign (set_path (Some (UriUtils.path parts))))
  end.

Definition begin (brokerUri : option string) : Action unit :=
  parseUriComponents brokerUri.

Definition setServer (host : option string) (port : Z) : Action unit :=
  h <- deref host ;;
  assign (set_host (Some h)) ;;
  assign (set_port port).

Definition setWebSocket (enable : bool) : Action unit :=
  assign (set_useWebSocket enable).

Definition setPath (path : option string) : Action unit :=
  match path with
  | None => ret tt
  | Some p => assign (set_path (Some p))
  end.

Definition setCredentials (username password : option string) : Action unit :=
  when (is_set username) (assign (set_username username)) ;;
  when (is_set password) (assign (set_password password)).

Definition setKeepalive (keepalive : Z) : Action unit :=
  assign (set_keepalive keepalive).

Definition setCACert (ca_cert : option string) : Action unit :=
  when (is_set ca_cert) (assign (set_caCert ca_cert)).

Definition setClientCert (client_cert : option string) : Action unit :=
  when (is_set client_cert) (assign (set_clientCert client_cert)).

Definition setClientKey (client_key : option string) : Action unit :=
  when (is_set client_key) (assign (set_clientKey client_key)).

Definition setInsecure (insecure : bool) : Action unit :=
  assign (set_skipCertVerify insecure).

Definition setProtocolFallback (enableFallback : bool) : Action unit :=
  assign (set_enableFallback enableFallback).

Definition onMessage (cb : option Callback) : Action unit :=
  assign (set_messageCallback cb).

Definition onConnect (cb : option Callback) : Action unit :=
  assign (set_connectCallback cb).

Definition onDisconnect (cb : option Callback) : Action unit :=
  assign (set_disconnectCallback cb).

(** *** Connecting *)

(** [_path && *_path] *)
Definition path_is_set (c : MqttClient) : bool :=
  match _path c with
  | Some p => negb (Text.is_empty p)
  | None => false
  end.

Definition buildUriIfNeeded : Action unit :=
  assign (set_uri None) ;;
  c <- this ;;
  when (_useWebSocket c || path_is_set c)
    (let parts :=
       UriUtils.mkUriParts
         (if _secure c then (if _useWebSocket c then "wss" else "mqtts")
          else (if _useWebSocket c then "ws" else "mqtt"))
         (match _host c with Some h => h | None => "" end)
         (_port c)
         (if _useWebSocket c
          then (match _path c with Some p => p | None => "/" end)
          else "") in
     assign (set_uri (Some (UriUtils.buildMqttUri parts)))).

Definition mqtt_cfg (c : MqttClient) (protocol : Z) : esp_mqtt_client_config_t :=
  mkConfig (_uri c)
           (if is_set (_uri c) then None else _host c)
           (if is_set (_uri c) then 0 else _port c)
           (_caCert c) (_skipCertVerify c)
           (_clientId c) (_username c) (_password c)
           (_clientCert c) (_clientKey c)
           (_keepalive c) protocol.

Definition connectWithProtocol (protocol : Z) : Action bool :=
  buildUriIfNeeded ;;
  c <- this ;;
  match _client c with
  | Some old =>
      engine_ (esp_mqtt_client_stop E old) (CallStop old) ;;
      engine_ (esp_mqtt_client_destroy E old) (CallDestroy old)
  | None => ret tt
  end ;;
  created <- engine (esp_mqtt_client_init E (mqtt_cfg c protocol))
                    (CallInit (mqtt_cfg c protocol)) ;;
  assign (set_client created) ;;
  match created with
  | None => ret false
  | Some h =>
      engine_ (esp_mqtt_client_register_event E h) (CallRegisterEvent h) ;;
      result <- engine (esp_mqtt_client_start E h) (CallStart h) ;;
      ret (result =? ESP_OK)
  end.

Definition connect (clientId : option string) : Action bool :=
  id <- deref clientId ;;
  assign (set_clientId (Some id)) ;;
  if Text.is_empty id then ret false
  else
    v5 <- connectWithProtocol MQTT_PROTOCOL_V_5 ;;
    if v5 then assign (set_usingFallback false) ;; ret true
    else
      c <- this ;;
      if _enableFallback c
      then
        legacy <- connectWithProtocol MQTT_PROTOCOL_V_3_1_1 ;;
        if legacy then assign (set_usingFallback true) ;; ret true
        else ret false
      else ret false.

Definition disconnect : Action unit :=
  c <- this ;;
  match _client c with
  | Some h => engine_ (esp_mqtt_client_disconnect E h) (CallDisconnect h)
  | None => ret tt
  end.

Definition isConnected : Action bool :=
  c <- this ;;
  ret (_connected c && is_set (_client c)).

Definition loop : Action unit := ret tt.

(** *** Communication *)

Definition publish (topic payload : option string) (retain : bool) : Action Z :=
  c <- this ;;
  match _client c with
  | None => ret (-1)
  | Some h =>
      let r := if retain then 1 else 0 in
      engine (esp_mqtt_client_publish E h topic payload 0 1 r)
             (CallPublish h topic payload 0 1 r)
  end.

Definition subscribe (topic : option string) (qos : Z) : Action Z :=
  c <- this ;;
  match _client c with
  | None => ret (-1)
  | Some h =>
      engine (esp_mqtt_client_subscribe E h topic qos) (CallSubscribe h topic qos)
  end.

Definition unsubscribe (topic : option string) : Action Z :=
  c <- this ;;
  match _client c with
  | None => ret (-1)
  | Some h =>
      engine (esp_mqtt_client_unsubscribe E h topic) (CallUnsubscribe h topic)
  end.

(** *** Engine events *)

Definition invoke (cb : option Callback) (o : Callback -> Obs) : Action unit :=
  match cb with
  | Some f => emit (o f)
  | None => ret tt
  end.

Definition onConnectedInternal : Action unit :=
  assign (set_connected true) ;;
  c <- this ;;
  invoke (_connectCallback c) InvokeConnect.

Definition reconnectWithFallback : Action unit :=
  emit (Delay 1000) ;;
  ok <- connectWithProtocol MQTT_PROTOCOL_V_3_1_1 ;;
  if ok then assign (set_usingFallback true)
  else
    c <- this ;;
    invoke (_disconnectCallback c) InvokeDisconnect.

Definition onDisconnectedInternal : Action unit :=
  c <- this ;;
  let wasConnected := _connected c in
  assign (set_connected false) ;;
  if wasConnected && _enableFallback c && negb (_usingFallback c)
  then reconnectWithFallback
  else invoke (_disconnectCallback c) InvokeDisconnect.

(** Conversion of an [int] to [size_t] (32 bits on the target). *)
Definition to_size_t (n : Z) : Z := n mod 2 ^ 32.

Definition onDataInternal (topic data : list byte) (data_len : Z) : Action unit :=
  c <- this ;;
  invoke (_messageCallback c)
         (fun cb => InvokeMessage cb topic data (to_size_t data_len)).

(** [char buf[n] = {0}] *)
Definition zeroed (n : nat) : list byte := repeat x00 n.

(** [memcpy(dst, src, n)] for [n] within both ranges. *)
Definition memcpy (dst src : list byte) (n : Z) : list byte :=
  firstn (Z.to_nat n) src ++ skipn (Z.to_nat n) dst.

Definition mqtt_event_handler
    (event_id : esp_mqtt_event_id_t) (event : esp_mqtt_event_t) : Action unit :=
  match event_id with
  | MQTT_EVENT_CONNECTED => onConnectedInternal
  | MQTT_EVENT_DISCONNECTED => onDisconnectedInternal
  | MQTT_EVENT_SUBSCRIBED => ret tt
  | MQTT_EVENT_UNSUBSCRIBED => ret tt
  | MQTT_EVENT_PUBLISHED => ret tt
  | MQTT_EVENT_DATA =>
      let topic :=
        if to_size_t (topic_len event) <? 256
        then memcpy (zeroed 256) (Esp.topic event) (to_size_t (topic_len event))
        else zeroed 256 in
      let data :=
        if to_size_t (data_len event) <? 512
        then memcpy (zeroed 512) (Esp.data event) (to_size_t (data_len event))
        else zeroed 512 in
      onDataInternal topic data (data_len event)
  | MQTT_EVENT_ERROR =>
      match error_handle event with
      | Some _ => ret tt
      | None => undefined
      end
  | MQTT_EVENT_OTHER _ => ret tt
  end.

(** *** Sequences of calls and events *)

Inductive Call : Type :=
| Begin (brokerUri : option string)
| SetServer (host : option string) (port : Z)
| SetWebSocket (enable : bool)
| SetPath (path : option string)
| SetCredentials (username password : option string)
| SetKeepalive (keepalive : Z)
| SetCACert (pem : option string)
| SetClientCert (pem : option string)
| SetClientKey (pem : option string)
| SetInsecure (insecure : bool)
| SetProtocolFallback (enableFallback : bool)
| OnMessage (cb : option Callback)
| OnConnect (cb : option Callback)
| OnDisconnect (cb : option Callback)
| Connect (clientId : option string)
| Disconnect
| IsConnected
| Loop
| Publish (topic payload : option string) (retain : bool)
| Subscribe (topic : option string) (qos : Z)
| Unsubscribe (topic : option string)
| EngineEvent (event_id : esp_mqtt_event_id_t) (event : esp_mqtt_event_t).

Definition discard {A} (m : Action A) : Action unit := m ;; ret tt.

Definition call (c : Call) : Action unit :=
  match c with
  | Begin u => begin u
  | SetServer h p => setServer h p
  | SetWebSocket b => setWebSocket b
  | SetPath p => setPath p
  | SetCredentials u p => setCredentials u p
  | SetKeepalive k => setKeepalive k
  | SetCACert p => setCACert p
  | SetClientCert p => setClientCert p
  | SetClientKey p => setClientKey p
  | SetInsecure b => setInsecure b
  | SetProtocolFallback b => setProtocolFallback b
  | OnMessage cb => onMessage cb
  | OnConnect cb => onConnect cb
  | OnDisconnect cb => onDisconnect cb
  | Connect id => discard (connect id)
  | Disconnect => disconnect
  | IsConnected => discard isConnected
  | Loop => loop
  | Publish t p r => discard (publish t p r)
  | Subscribe t q => discard (subscribe t q)
  | Unsubscribe t => discard (unsubscribe t)
  | EngineEvent id ev => mqtt_event_handler id ev
  end.

Fixpoint calls (cs : list Call) : Action unit :=
  match cs with
  | [] => ret tt
  | c :: rest => call c ;; calls rest
  end.

(** *** Creation and destruction *)

(** [MqttClient::getInstance()]: the static [_instance] before the call
    gives the static [_instance] after it, which is what the returned
    pointer designates. *)
Definition getInstance (_instance : option MqttClient) : option MqttClient :=
  match _instance with
  | None => Some MqttClient_new
  | Some c => Some c
  end.

(** [MqttClient::~MqttClient()]: the engine client, if any, is stopped and
    destroyed; the [free] of the text buffers is not observable. *)
Definition MqttClient_delete : Action unit :=
  c <- this ;;
  match _client c with
  | Some h =>
      engine_ (esp_mqtt_client_stop E h) (CallStop h) ;;
      engine_ (esp_mqtt_client_destroy E h) (CallDestroy h)
  | None => ret tt
  end.

End WithEngine.

Arguments Sys : clear implicits.
Arguments Action : clear implicits.

End Client.

(* ================================================================== *)
(** ** What is measured on a run *)

Module Measure.
Import Esp Run.

(** An attempt with the legacy protocol: the engine is initialised with
    protocol version 4. *)
Definition is_legacy_init (o : Obs) : bool :=
  match o with
  | CallInit cfg _ => session_protocol_ver cfg =? MQTT_PROTOCOL_V_3_1_1
  | _ => false
  end.

Definition is_init (o : Obs) : bool :=
  match o with CallInit _ _ => true | _ => false end.

Definition is_start (o : Obs) : bool :=
  match o with CallStart _ _ => true | _ => false end.

(** Any call into the engine. *)
Definition is_engine_call (o : Obs) : bool :=
  match o with
  | Delay _ | InvokeConnect _ | InvokeDisconnect _ | InvokeMessage _ _ _ _ => false
  | _ => true
  end.

Definition is_disconnect_report (o : Obs) : bool :=
  match o with InvokeDisconnect _ => true | _ => false end.

Definition count (p : Obs -> bool) (t : list Obs) : nat :=
  List.length (filter p t).

Definition legacy_attempts (t : list Obs) : nat := count is_legacy_init t.

Definition disconnect_reports (t : list Obs) : nat := count is_disconnect_report t.

(** Fallback hops: starts that returned [ESP_OK] on a client that was
    initialised with the legacy protocol.  [legacy] tells whether the most
    recent initialisation asked for the legacy protocol. *)
Fixpoint hops_from (legacy : bool) (t : list Obs) : nat :=
  match t with
  | [] => 0%nat
  | CallInit cfg _ :: rest =>
      hops_from (session_protocol_ver cfg =? MQTT_PROTOCOL_V_3_1_1) rest
  | CallStart _ r :: rest =>
      (if legacy && (r =? ESP_OK) then S (hops_from legacy rest)
       else hops_from legacy rest)
  | _ :: rest => hops_from legacy rest
  end.

Definition fallback_hops (t : list Obs) : nat := hops_from false t.

(** A run in which every start follows an initialisation of the same run:
    its hops do not depend on what came before. *)
Definition self_contained (t : list Obs) : Prop :=
  forall legacy, hops_from legacy t = fallback_hops t.

(** Whether the engine client that exists at the end of a run has been
    started.  The engine delivers events only for a started client. *)
Fixpoint alive_from (alive : bool) (t : list Obs) : bool :=
  match t with
  | [] => alive
  | CallInit _ _ :: rest => alive_from false rest
  | CallStart _ r :: rest => alive_from (r =? ESP_OK) rest
  | CallStop _ :: rest => alive_from false rest
  | CallDestroy _ :: rest => alive_from false rest
  | _ :: rest => alive_from alive rest
  end.

End Measure.

(* ================================================================== *)
(** ** A scripted engine, for running the client on concrete inputs *)

Module Scripted.
Import Esp.

(** The outcomes of the coming [init] calls ([true]: a handle is returned)
    and [start] calls, in order; when a list is used up the call succeeds. *)
Record Script : Type := mkScript {
  next_handle : nat;
  init_results : list bool;
  start_results : list Z
}.

Definition init (cfg : esp_mqtt_client_config_t) (w : Script)
  : option esp_mqtt_client_handle_t * Script :=
  match init_results w with
  | false :: rest => (None, mkScript (next_handle w) rest (start_results w))
  | _ => (Some (next_handle w),
          mkScript (S (next_handle w)) (tl (init_results w)) (start_results w))
  end.

Definition start (h : esp_mqtt_client_handle_t) (w : Script) : Z * Script :=
  match start_results w with
  | r :: rest => (r, mkScript (next_handle w) (init_results w) rest)
  | [] => (ESP_OK, w)
  end.

Definition scripted : Engine :=
  mkEngine Script init (fun _ w => w) start (fun _ w => w) (fun _ w => w)
           (fun _ w => w)
           (fun _ _ _ _ _ _ w => (1, w))
           (fun _ _ _ w => (1, w))
           (fun _ _ w => (1, w)).

Definition fresh (inits : list bool) (starts : list Z) : Client.Sys scripted :=
  @Client.mkSys scripted Client.MqttClient_new (mkScript 0 inits starts).

(** The state reached by a sequence of calls. *)
Definition after (cs : list Client.Call) (s : Client.Sys scripted)
  : Client.Sys scripted :=
  match Client.calls cs s with
  | Run.Done _ s' _ => s'
  | Run.Undefined => s
  end.

Definition plain_event : esp_mqtt_event_t := mkEvent 0 None 0 [] 0 [] 0.

(** A disconnect caused by a TCP transport error (ECONNRESET). *)
Definition transport_error : esp_mqtt_event_t :=
  mkEvent 0 (Some (mkErrorCodes MQTT_ERROR_TYPE_TCP_TRANSPORT 0 104 0))
          0 [] 0 [] 0.

Definition setup : list Client.Call :=
  [Client.SetServer (Some "broker.example.com") 1883;
   Client.SetProtocolFallback true;
   Client.OnConnect (Some 8%nat);
   Client.OnDisconnect (Some 7%nat);
   Client.OnMessage (Some 9%nat)].

(** Fallback enabled, preferred protocol started, no session yet; the
    next start will fail. *)
Definition pending : Client.Sys scripted :=
  Eval vm_compute in
  after (setup ++ [Client.Connect (Some "dev")]) (fresh [] [ESP_OK; 1]).

(** The same with the session established. *)
Definition established : Client.Sys scripted :=
  Eval vm_compute in
  after [Client.EngineEvent MQTT_EVENT_CONNECTED plain_event] pending.

(** A session on the legacy protocol: the preferred protocol failed to
    start and the legacy protocol started. *)
Definition legacy_session : Client.Sys scripted :=
  Eval vm_compute in
  after (setup ++ [Client.Connect (Some "dev");
                   Client.EngineEvent MQTT_EVENT_CONNECTED plain_event])
        (fresh [] [1; ESP_OK]).

(** A drop caused by a transport error, a new session, a clean drop. *)
Definition drops : list Client.Call :=
  [Client.EngineEvent MQTT_EVENT_DISCONNECTED transport_error;
   Client.EngineEvent MQTT_EVENT_CONNECTED plain_event;
   Client.EngineEvent MQTT_EVENT_DISCONNECTED plain_event].

(** A message of one topic byte and [n] payload bytes. *)
Definition message (n : nat) : esp_mqtt_event_t :=
  mkEvent 0 None 0 [x74] 1 (repeat x61 n) (Z.of_nat n).

(** The trace of a sequence of calls. *)
Definition trace_of (cs : list Client.Call) (s : Client.Sys scripted)
  : list Run.Obs :=
  match Client.calls cs s with
  | Run.Done _ _ t => t
  | Run.Undefined => []
  end.

(** A whole session: configuration, a connect whose preferred start
    fails and whose legacy start succeeds, traffic, a drop, a second
    connect, another drop. *)
Definition session : list Client.Call :=
  setup
  ++ [Client.Connect (Some "dev");
      Client.EngineEvent MQTT_EVENT_CONNECTED plain_event;
      Client.Subscribe (Some "device/command") 1;
      Client.Publish (Some "device/status") (Some "online") true;
      Client.EngineEvent MQTT_EVENT_DATA (message 2);
      Client.EngineEvent MQTT_EVENT_DISCONNECTED transport_error;
      Client.Connect (Some "dev");
      Client.EngineEvent MQTT_EVENT_CONNECTED plain_event;
      Client.EngineEvent MQTT_EVENT_DATA (message 600);
      Client.Unsubscribe (Some "device/command");
      Client.Disconnect;
      Client.EngineEvent MQTT_EVENT_DISCONNECTED plain_event].

Definition session_start : Client.Sys scripted := fresh [] [1; ESP_OK; ESP_OK; 1].

Definition session_end : Client.Sys scripted :=
  Eval vm_compute in after session session_start.

Definition session_trace : list Run.Obs :=
  Eval vm_compute in trace_of session session_start.

(** The client after [setup], in front of an engine whose next start
    fails. *)
Definition configured : Client.Sys scripted :=
  Eval vm_compute in after setup (fresh [] [1; ESP_OK]).

(** Calls after a drop, none of them a connected event. *)
Definition aftermath : list Client.Call :=
  [Client.Publish (Some "device/status") (Some "offline") false;
   Client.Connect (Some "dev");
   Client.EngineEvent MQTT_EVENT_DISCONNECTED plain_event;
   Client.IsConnected].

End Scripted.

(* ================================================================== *)
(** ** Vocabulary of the statements *)

Module Locator.
Import Text UriUtils.

Definition is_canonical (s : string) : bool :=
  String.eqb s "mqtt" || String.eqb s "mqtts"
  || String.eqb s "ws" || String.eqb s "wss".

(** The shape of every successfully parsed locator. *)
Record Parsed (p : UriParts) : Prop := mkParsed {
  parsed_scheme : is_canonical (scheme p) = true;
  parsed_host : is_empty (host p) = false;
  parsed_host_free : free_of is_delim (host p) = true;
  parsed_port : 1 <= port p <= 65535;
  parsed_path : is_empty (path p) = false /\ starts_with is_slash (path p) = true
}.

(** Parse, build, parse again. *)
Definition reparse (uri : string) : option UriParts :=
  match parseMqttUri uri with
  | Some p => parseMqttUri (buildMqttUri p)
  | None => None
  end.

(** Optional credentials in front of the host: nothing, or text without a
    slash that ends in ['@']. *)
Definition is_credentials (s : string) : Prop :=
  s = "" \/ exists user, s = user ++ "@" /\ free_of is_slash user = true.

(** The four ways in which a locator is malformed.  [sch] is the text in
    front of the first ["://"], [tail] is empty or a path. *)
Inductive Malformed : string -> Prop :=
| NoSeparator uri :
    (forall a b, uri <> a ++ "://" ++ b) -> Malformed uri
| UnknownScheme sch rest :
    free_of is_colon sch = true -> scheme_of_text sch = None ->
    Malformed (sch ++ "://" ++ rest)
| EmptyHost sch creds porttext tail :
    free_of is_colon sch = true -> is_credentials creds ->
    free_of is_slash porttext = true -> free_of is_at porttext = true ->
    starts_with is_colon porttext = true ->
    starts_with is_slash tail = true ->
    Malformed (sch ++ "://" ++ creds ++ porttext ++ tail)
| InvalidPort sch creds h digits tail :
    free_of is_colon sch = true -> is_credentials creds ->
    free_of is_delim h = true ->
    free_of is_slash digits = true -> free_of is_at digits = true ->
    parse_port digits = None ->
    starts_with is_slash tail = true ->
    Malformed (sch ++ "://" ++ creds ++ h ++ ":" ++ digits ++ tail).

End Locator.

Module Negotiation.
Import Esp Run Client.

(** The guard of [onDisconnectedInternal]: the session was up, fallback is
    enabled and the legacy protocol is not in use yet. *)
Definition fallback_due (c : MqttClient) : bool :=
  _connected c && _enableFallback c && negb (_usingFallback c).

(** What one [connectWithProtocol] shows: the previous engine client, if
    any, is stopped and destroyed, a client is initialised and, when that
    gave a handle, registered and started. *)
Definition attempt_obs (old : option esp_mqtt_client_handle_t)
    (cfg : esp_mqtt_client_config_t)
    (created : option esp_mqtt_client_handle_t) (result : Z) : list Obs :=
  (match old with Some h => [CallStop h; CallDestroy h] | None => [] end)
  ++ CallInit cfg created
  :: (match created with
      | Some h => [CallRegisterEvent h; CallStart h result]
      | None => []
      end).

Definition attempt_ok (created : option esp_mqtt_client_handle_t) (result : Z)
  : bool :=
  match created with
  | Some _ => result =? ESP_OK
  | None => false
  end.

(** The URI text the client hands to the engine, following the spec's
    wording [scheme://host[:port]path]. *)
Definition uri_text (c : MqttClient) : string :=
  UriUtils.scheme_text (_secure c) (_useWebSocket c) ++ "://"
  ++ (match _host c with Some h => h | None => "" end)
  ++ (if _port c =? UriUtils.default_port (_secure c) then ""
      else ":" ++ Text.decimal (_port c))
  ++ (if _useWebSocket c
      then (match _path c with Some p => p | None => "/" end)
      else "").

Definition needed_uri (c : MqttClient) : option string :=
  if _useWebSocket c || path_is_set c then Some (uri_text c) else None.

(** The report of a disconnect to the application. *)
Definition report (c : MqttClient) : list Obs :=
  match _disconnectCallback c with
  | Some cb => [InvokeDisconnect cb]
  | None => []
  end.

(** The runs of [connect]: refused, preferred protocol started, preferred
    protocol failed without fallback, preferred protocol failed and the
    legacy protocol tried. *)
Inductive ConnectRun {E : Engine} (id : string) (s : Sys E)
  : bool -> Sys E -> list Obs -> Prop :=
| Refused :
    Text.is_empty id = true ->
    ConnectRun id s false
      (mkSys (set_clientId (Some id) (obj s)) (world s)) []
| Preferred old cfg created result s' :
    Text.is_empty id = false ->
    session_protocol_ver cfg = MQTT_PROTOCOL_V_5 ->
    attempt_ok created result = true ->
    _usingFallback (obj s') = false ->
    ConnectRun id s true s' (attempt_obs old cfg created result)
| Failed old cfg created result s' :
    Text.is_empty id = false ->
    session_protocol_ver cfg = MQTT_PROTOCOL_V_5 ->
    attempt_ok created result = false ->
    _enableFallback (obj s) = false ->
    _usingFallback (obj s') = _usingFallback (obj s) ->
    ConnectRun id s false s' (attempt_obs old cfg created result)
| FellBack old cfg created result old' cfg' created' result' s' :
    Text.is_empty id = false ->
    session_protocol_ver cfg = MQTT_PROTOCOL_V_5 ->
    attempt_ok created result = false ->
    _enableFallback (obj s) = true ->
    session_protocol_ver cfg' = MQTT_PROTOCOL_V_3_1_1 ->
    _usingFallback (obj s')
    = (attempt_ok created' result' || _usingFallback (obj s)) ->
    ConnectRun id s (attempt_ok created' result') s'
      (attempt_obs old cfg created result
       ++ attempt_obs old' cfg' created' result').

(** The runs of [onDisconnectedInternal]: reported at once; healed by a
    legacy attempt that started; reported after a legacy attempt that
    failed. *)
Inductive DisconnectRun {E : Engine} (s : Sys E) : Sys E -> list Obs -> Prop :=
| Reported :
    fallback_due (obj s) = false ->
    DisconnectRun s (mkSys (set_connected false (obj s)) (world s))
      (report (obj s))
| Healed old cfg created result s' :
    fallback_due (obj s) = true ->
    session_protocol_ver cfg = MQTT_PROTOCOL_V_3_1_1 ->
    attempt_ok created result = true ->
    _usingFallback (obj s') = true ->
    DisconnectRun s s' (Delay 1000 :: attempt_obs old cfg created result)
| ReportedAfterAttempt old cfg created result s' :
    fallback_due (obj s) = true ->
    session_protocol_ver cfg = MQTT_PROTOCOL_V_3_1_1 ->
    attempt_ok created result = false ->
    _usingFallback (obj s') = false ->
    DisconnectRun s s'
      (Delay 1000 :: attempt_obs old cfg created result ++ report (obj s)).

Definition is_connect (c : Call) : bool :=
  match c with Connect _ => true | _ => false end.

Definition is_event (c : Call) : bool :=
  match c with EngineEvent _ _ => true | _ => false end.

Definition enables_fallback (c : Call) : bool :=
  match c with SetProtocolFallback true => true | _ => false end.

Definition none_of (p : Call -> bool) (cs : list Call) : bool :=
  forallb (fun c => negb (p c)) cs.

(** A sequence of calls and events in which every engine event arrives
    while a started engine client exists. *)
Fixpoint admissible {E : Engine} (alive : bool) (cs : list Call) (s : Sys E)
  : Prop :=
  match cs with
  | [] => True
  | c :: rest =>
      (is_event c = true -> alive = true)
      /\ match call c s with
         | Done _ s1 t1 => admissible (Measure.alive_from alive t1) rest s1
         | Undefined => True
         end
  end.

End Negotiation.

(* ================================================================== *)
(** ** How the engine is used *)

Module Usage.
Import Esp Run Client.

(** [h] is the engine client that currently exists. *)
Definition holds (cur : option esp_mqtt_client_handle_t)
    (h : esp_mqtt_client_handle_t) : bool :=
  match cur with
  | Some c => Nat.eqb c h
  | None => false
  end.

(** The engine client that exists after a run, given the one before it:
    [init] creates one, [destroy] removes it. *)
Fixpoint current_after (cur : option esp_mqtt_client_handle_t) (t : list Obs)
  : option esp_mqtt_client_handle_t :=
  match t with
  | [] => cur
  | CallInit _ created :: rest => current_after created rest
  | CallDestroy _ :: rest => current_after None rest
  | _ :: rest => current_after cur rest
  end.

(** A run that uses the engine properly: a client is initialised only
    when none exists, and every other call is made on the client that
    exists at that moment. *)
Fixpoint disciplined (cur : option esp_mqtt_client_handle_t) (t : list Obs)
  : bool :=
  match t with
  | [] => true
  | CallInit _ created :: rest =>
      negb (is_set cur) && disciplined created rest
  | CallDestroy h :: rest => holds cur h && disciplined None rest
  | CallRegisterEvent h :: rest => holds cur h && disciplined cur rest
  | CallStart h _ :: rest => holds cur h && disciplined cur rest
  | CallStop h :: rest => holds cur h && disciplined cur rest
  | CallDisconnect h :: rest => holds cur h && disciplined cur rest
  | CallPublish h _ _ _ _ _ _ :: rest => holds cur h && disciplined cur rest
  | CallSubscribe h _ _ _ :: rest => holds cur h && disciplined cur rest
  | CallUnsubscribe h _ _ :: rest => holds cur h && disciplined cur rest
  | _ :: rest => disciplined cur rest
  end.

(** The configurations of the initialisations of a run, in order. *)
Fixpoint inits (t : list Obs) : list esp_mqtt_client_config_t :=
  match t with
  | [] => []
  | CallInit cfg _ :: rest => cfg :: inits rest
  | _ :: rest => inits rest
  end.

(** The broker address of a configuration is a URI alone, or a host name
    and a port alone. *)
Definition address_exclusive (cfg : esp_mqtt_client_config_t) : bool :=
  match broker_address_uri cfg with
  | Some _ =>
      negb (is_set (broker_address_hostname cfg))
      && (broker_address_port cfg =? 0)
  | None => true
  end.

Definition with_protocol (protocol : Z) (cfg : esp_mqtt_client_config_t)
  : esp_mqtt_client_config_t :=
  mkConfig (broker_address_uri cfg) (broker_address_hostname cfg)
           (broker_address_port cfg) (broker_verification_certificate cfg)
           (broker_verification_skip_cert_common_name_check cfg)
           (credentials_client_id cfg) (credentials_username cfg)
           (credentials_authentication_password cfg)
           (credentials_authentication_certificate cfg)
           (credentials_authentication_key cfg)
           (session_keepalive cfg) protocol.

Definition is_delay (o : Obs) : bool :=
  match o with Delay _ => true | _ => false end.

Definition is_invoke_connect (o : Obs) : bool :=
  match o with InvokeConnect _ => true | _ => false end.

Definition is_invoke_message (o : Obs) : bool :=
  match o with InvokeMessage _ _ _ _ => true | _ => false end.

Definition is_good_start (o : Obs) : bool :=
  match o with CallStart _ r => r =? ESP_OK | _ => false end.

Definition is_connected_event (c : Call) : bool :=
  match c with EngineEvent MQTT_EVENT_CONNECTED _ => true | _ => false end.

Definition is_data_event (c : Call) : bool :=
  match c with EngineEvent MQTT_EVENT_DATA _ => true | _ => false end.

Definition registers_callback (c : Call) : bool :=
  match c with OnConnect _ | OnMessage _ => true | _ => false end.

(** The client object after one attempt and the configuration the
    attempt hands to the engine. *)
Definition attempt_state (c : MqttClient)
    (created : option esp_mqtt_client_handle_t) : MqttClient :=
  set_client created (set_uri (Negotiation.needed_uri c) c).

Definition attempt_cfg (c : MqttClient) (protocol : Z)
  : esp_mqtt_client_config_t :=
  mqtt_cfg (set_uri (Negotiation.needed_uri c) c) protocol.

Definition tally (b : bool) : nat := if b then 1%nat else 0%nat.

Definition occurrences (p : Call -> bool) (cs : list Call) : nat :=
  List.length (filter p cs).

(** The text members of the client: which of them are set. *)
Definition stored (c : MqttClient) : list bool :=
  [is_set (_host c); is_set (_path c); is_set (_username c);
   is_set (_password c); is_set (_clientId c); is_set (_caCert c);
   is_set (_clientCert c); is_set (_clientKey c)].

(** Every member set in [a] is set in [b]. *)
Definition still_set (a b : list bool) : bool :=
  forallb (fun p => implb (fst p) (snd p)) (combine a b).

End Usage.

(* ================================================================== *)
(** * Properties *)

(** ** Splitting and joining text *)

Module TextFacts.
Import Text.

Lemma is_colon_eq c : is_colon c = true -> c = ":"%char.
Proof. apply Ascii.eqb_eq. Qed.

Lemma is_slash_eq c : is_slash c = true -> c = "/"%char.
Proof. apply Ascii.eqb_eq. Qed.

Lemma is_at_eq c : is_at c = true -> c = "@"%char.
Proof. apply Ascii.eqb_eq. Qed.

Lemma append_nil_r s : s ++ "" = s.
Proof. induction s; simpl; congruence. Qed.

Lemma append_assoc a b c : (a ++ b) ++ c = a ++ b ++ c.
Proof. induction a; simpl; congruence. Qed.

Lemma free_of_app p a b : free_of p (a ++ b) = free_of p a && free_of p b.
Proof.
  unfold free_of. induction a as [|c a IH]; simpl; [reflexivity|].
  rewrite IH. now rewrite andb_assoc.
Qed.

Lemma free_of_weaken (p q : ascii -> bool) s :
  (forall c, q c = true -> p c = true) ->
  free_of p s = true -> free_of q s = true.
Proof.
  intros Hpq. unfold free_of. induction s as [|c s IH]; simpl; [reflexivity|].
  rewrite !andb_true_iff, !negb_true_iff. intros [Hc Hs]. split; [|auto].
  destruct (q c) eqn:Hq; [|reflexivity]. apply Hpq in Hq. congruence.
Qed.

Lemma break_app p a b :
  free_of p a = true -> starts_with p b = true -> break p (a ++ b) = (a, b).
Proof.
  unfold free_of. induction a as [|c a IH]; simpl; intros Ha Hb.
  - destruct b as [|d b]; simpl in *; [reflexivity|]. now rewrite Hb.
  - apply andb_true_iff in Ha as [Hc Ha]. apply negb_true_iff in Hc.
    rewrite Hc, (IH Ha Hb). reflexivity.
Qed.

Lemma break_spec p s a b :
  break p s = (a, b) ->
  s = a ++ b /\ free_of p a = true /\ starts_with p b = true.
Proof.
  unfold free_of. revert a b. induction s as [|c s IH]; simpl; intros a b H.
  - inversion H; subst. auto.
  - destruct (p c) eqn:Hc.
    + inversion H; subst. simpl. auto.
    + destruct (break p s) as [a' b'] eqn:Hs. inversion H; subst.
      destruct (IH _ _ eq_refl) as (-> & Ha & Hb). simpl.
      rewrite Hc, Ha. auto.
Qed.

Lemma after_last_at_none s : free_of is_at s = true -> after_last_at s = None.
Proof.
  unfold free_of. induction s as [|c s IH]; simpl; [reflexivity|].
  intros H. apply andb_true_iff in H as [Hc Hs]. apply negb_true_iff in Hc.
  now rewrite (IH Hs), Hc.
Qed.

Lemma after_last_at_spec s t :
  after_last_at s = Some t ->
  (exists u, s = u ++ "@" ++ t) /\ free_of is_at t = true.
Proof.
  revert t. induction s as [|c s IH]; simpl; intros t H; [discriminate|].
  destruct (after_last_at s) as [t'|] eqn:Hs.
  - inversion H; subst. destruct (IH _ eq_refl) as [[u ->] Ht].
    split; [exists (String c u); reflexivity | exact Ht].
  - destruct (is_at c) eqn:Hc; [|discriminate]. inversion H; subst.
    apply is_at_eq in Hc. subst c. split; [exists ""; reflexivity|].
    clear -Hs. unfold free_of.
    induction t as [|d t IH]; simpl in *; [reflexivity|].
    destruct (after_last_at t); [discriminate|].
    destruct (is_at d); [discriminate|]. simpl. auto.
Qed.

Lemma after_last_at_app u t :
  free_of is_at t = true -> after_last_at (u ++ "@" ++ t) = Some t.
Proof.
  intros Ht. induction u as [|c u IH]; simpl.
  - now rewrite (after_last_at_none _ Ht).
  - simpl in IH. now rewrite IH.
Qed.

Lemma split_scheme_app a r :
  free_of is_colon a = true -> split_scheme (a ++ "://" ++ r) = Some (a, r).
Proof.
  unfold free_of. induction a as [|c a IH]; simpl; intros Ha; [reflexivity|].
  apply andb_true_iff in Ha as [Hc Ha]. apply negb_true_iff in Hc.
  rewrite Hc. simpl in IH. now rewrite (IH Ha).
Qed.

Lemma split_scheme_spec s a b :
  split_scheme s = Some (a, b) -> s = a ++ "://" ++ b.
Proof.
  revert a. induction s as [|c s IH]; simpl; intros a H; [discriminate|].
  destruct (if is_colon c then after_slashes s else None) as [rest|] eqn:Hc.
  - inversion H; subst. destruct (is_colon c) eqn:Hcol; [|discriminate].
    apply is_colon_eq in Hcol. subst c.
    destruct s as [|x [|y s]]; simpl in Hc; try discriminate.
    destruct (is_slash x) eqn:Hx; [|discriminate].
    destruct (is_slash y) eqn:Hy; [|discriminate].
    apply is_slash_eq in Hx, Hy. simpl in Hc. inversion Hc. now subst.
  - destruct (split_scheme s) as [[a' b']|]; [|discriminate].
    inversion H; subst. simpl. f_equal. now apply IH.
Qed.

(** Decimal text holds digits only, so none of the delimiters. *)
Lemma decimal_free n : free_of is_delim (decimal n) = true.
Proof.
  unfold decimal. generalize (N.to_uint (Z.to_N n)). intros d.
  assert (H : free_of is_delim (NilEmpty.string_of_uint d) = true)
    by (induction d; simpl; auto).
  destruct d; [reflexivity | exact H ..].
Qed.

Lemma of_decimal_decimal n : 0 <= n -> of_decimal (decimal n) = Some n.
Proof.
  intros Hn. unfold of_decimal, decimal.
  pose proof (DecimalN.Unsigned.of_to (Z.to_N n)) as Hof.
  destruct (N.to_uint (Z.to_N n)) eqn:Hd;
    [| rewrite NilZero.usu by discriminate; rewrite Hof; f_equal; lia ..].
  rewrite NilZero.usu_nil. f_equal.
  change (N.of_uint Nil) with 0%N in Hof.
  change (N.of_uint Decimal.zero) with 0%N. lia.
Qed.

End TextFacts.

(* ================================================================== *)
(** ** Locators: what [parseMqttUri] yields and how it composes with
       [buildMqttUri] *)

Module UriFacts.
Import Text TextFacts UriUtils Locator.

Lemma scheme_of_text_canonical s c :
  scheme_of_text s = Some c -> is_canonical c = true.
Proof.
  unfold scheme_of_text.
  repeat match goal with
         | |- context [if ?b then _ else _] => destruct b
         end; intros [= <-]; reflexivity.
Qed.

Lemma path_or_default_shape tail :
  starts_with is_slash tail = true ->
  is_empty (path_or_default tail) = false
  /\ starts_with is_slash (path_or_default tail) = true.
Proof. destruct tail; simpl; auto. Qed.

Lemma parse_port_range s v : parse_port s = Some v -> 1 <= v <= 65535.
Proof.
  unfold parse_port. destruct (of_decimal s) as [n|]; [|discriminate].
  destruct (1 <=? n) eqn:H1; destruct (n <=? 65535) eqn:H2; simpl;
    intros [= <-]. lia.
Qed.

Lemma parse_port_decimal v : 1 <= v <= 65535 -> parse_port (decimal v) = Some v.
Proof.
  intros Hv. unfold parse_port. rewrite of_decimal_decimal by lia.
  replace (1 <=? v) with true by (symmetry; apply Z.leb_le; lia).
  replace (v <=? 65535) with true by (symmetry; apply Z.leb_le; lia).
  reflexivity.
Qed.

Lemma after_last_at_free s : after_last_at s = None -> free_of is_at s = true.
Proof.
  unfold free_of. induction s as [|c s IH]; simpl; [reflexivity|].
  destruct (after_last_at s); [discriminate|].
  destruct (is_at c); [discriminate|]. auto.
Qed.

Lemma strip_credentials_free authority :
  free_of is_slash authority = true ->
  free_of is_slash (strip_credentials authority) = true
  /\ free_of is_at (strip_credentials authority) = true.
Proof.
  intros Hs. unfold strip_credentials.
  destruct (after_last_at authority) as [t|] eqn:Ht.
  - apply after_last_at_spec in Ht as [[u ->] Hat]. split; [|exact Hat].
    rewrite !free_of_app in Hs. now repeat apply andb_true_iff in Hs as [_ Hs].
  - split; [exact Hs | now apply after_last_at_free].
Qed.

Lemma free_of_delim s :
  free_of is_slash s = true -> free_of is_colon s = true ->
  free_of is_at s = true -> free_of is_delim s = true.
Proof.
  unfold free_of, is_delim. induction s as [|c s IH]; simpl; [reflexivity|].
  rewrite !andb_true_iff, !negb_true_iff.
  intros [-> ?] [-> ?] [-> ?]. auto.
Qed.

Lemma delim_free_parts s :
  free_of is_delim s = true ->
  free_of is_slash s = true /\ free_of is_colon s = true
  /\ free_of is_at s = true.
Proof.
  intros H. repeat split; revert H; apply free_of_weaken;
    unfold is_delim; intros c Hc; rewrite !orb_true_iff; auto.
Qed.

Lemma parseMqttUri_parsed uri p : parseMqttUri uri = Some p -> Parsed p.
Proof.
  unfold parseMqttUri.
  destruct (split_scheme uri) as [[sch rest]|]; [|discriminate].
  destruct (scheme_of_text sch) as [canonical|] eqn:Hsch; [|discriminate].
  destruct (break is_slash rest) as [authority tail] eqn:Hrest.
  destruct (break is_colon (strip_credentials authority)) as [h porttext] eqn:Hhp.
  destruct (is_empty h) eqn:Hh; [discriminate|].
  apply break_spec in Hrest as (_ & Hauth & Htail).
  apply break_spec in Hhp as (Hsplit & Hcolon & _).
  destruct (strip_credentials_free _ Hauth) as [Hslash Hat].
  rewrite Hsplit, free_of_app in Hslash, Hat.
  apply andb_true_iff in Hslash as [Hslash _], Hat as [Hat _].
  assert (Hfree : free_of is_delim h = true) by now apply free_of_delim.
  apply scheme_of_text_canonical in Hsch.
  pose proof (path_or_default_shape _ Htail) as Hpath.
  destruct porttext as [|c digits].
  - intros [= <-]. constructor; simpl; auto.
    destruct (_ || _); simpl; lia.
  - destruct (parse_port digits) as [v|] eqn:Hv; [|discriminate].
    intros [= <-]. constructor; simpl; auto.
    now apply parse_port_range in Hv.
Qed.

Lemma canonical_cases s :
  is_canonical s = true -> s = "mqtt" \/ s = "mqtts" \/ s = "ws" \/ s = "wss".
Proof.
  unfold is_canonical. rewrite !orb_true_iff, !String.eqb_eq. tauto.
Qed.

Lemma canonical_flags p :
  is_canonical (scheme p) = true ->
  scheme p = scheme_text (isSecure p) (isWebSocket p).
Proof.
  intros H. unfold isSecure, isWebSocket.
  destruct (canonical_cases _ H) as [-> | [-> | [-> | ->]]]; reflexivity.
Qed.

Lemma scheme_text_flags secure websocket :
  free_of is_colon (scheme_text secure websocket) = true
  /\ scheme_of_text (scheme_text secure websocket)
     = Some (scheme_text secure websocket)
  /\ String.eqb (scheme_text secure websocket) "mqtts"
     || String.eqb (scheme_text secure websocket) "wss" = secure.
Proof. destruct secure, websocket; repeat split. Qed.

(** Parsing a locator assembled from flags, a delimiter-free host, a port
    in range and a path. *)
Lemma parse_assembled secure websocket h pt pa :
  is_empty h = false -> free_of is_delim h = true -> 1 <= pt <= 65535 ->
  is_empty pa = false -> starts_with is_slash pa = true ->
  parseMqttUri
    (scheme_text secure websocket ++ "://" ++ h
     ++ (if pt =? default_port secure then "" else ":" ++ decimal pt)
     ++ (if websocket && negb (is_empty pa) then pa else ""))
  = Some (mkUriParts (scheme_text secure websocket) h pt
                     (if websocket then pa else "/")).
Proof.
  intros Hh Hfree Hport Hpne Hpath.
  destruct (delim_free_parts _ Hfree) as (Hslash & Hcolon & Hat).
  destruct (delim_free_parts _ (decimal_free pt)) as (Hdslash & _ & Hdat).
  destruct (scheme_text_flags secure websocket) as (Hsc & Hst & Hsec).
  set (portpart := if pt =? default_port secure then "" else ":" ++ decimal pt).
  set (pathpart := if websocket && negb (is_empty pa) then pa else "").
  assert (Hpp_slash : free_of is_slash portpart = true).
  { subst portpart. destruct (_ =? _); [reflexivity|].
    now rewrite free_of_app, Hdslash. }
  assert (Hpp_at : free_of is_at portpart = true).
  { subst portpart. destruct (_ =? _); [reflexivity|].
    now rewrite free_of_app, Hdat. }
  assert (Hpp_colon : starts_with is_colon portpart = true)
    by (subst portpart; destruct (_ =? _); reflexivity).
  assert (Hpath_slash : starts_with is_slash pathpart = true)
    by (subst pathpart; destruct (_ && _); [exact Hpath | reflexivity]).
  assert (Hpd : path_or_default pathpart = if websocket then pa else "/").
  { subst pathpart. destruct websocket; simpl; [|reflexivity].
    rewrite Hpne. simpl. unfold path_or_default. now rewrite Hpne. }
  rewrite <- (append_assoc h portpart pathpart).
  unfold parseMqttUri.
  rewrite (split_scheme_app _ _ Hsc), Hst.
  rewrite break_app by (rewrite ?free_of_app, ?Hslash, ?Hpp_slash; auto).
  unfold strip_credentials.
  rewrite after_last_at_none by (rewrite free_of_app, Hat, Hpp_at; auto).
  rewrite (break_app _ _ _ Hcolon Hpp_colon), Hh, Hsec, Hpd.
  subst portpart.
  destruct (pt =? default_port secure) eqn:Hdef.
  - apply Z.eqb_eq in Hdef. now rewrite <- Hdef.
  - cbn [append]. now rewrite parse_port_decimal.
Qed.

(** Parsing what [buildMqttUri] emits for a parsed locator: scheme, host
    and port come back; the path comes back for a WebSocket scheme and is
    the default otherwise. *)
Lemma parse_build p :
  Parsed p ->
  parseMqttUri (buildMqttUri p)
  = Some (mkUriParts (scheme p) (host p) (port p)
                     (if isWebSocket p then path p else "/")).
Proof.
  intros [Hs Hh Hfree Hport [Hpne Hpath]].
  unfold buildMqttUri.
  rewrite (parse_assembled (isSecure p) (isWebSocket p)) by assumption.
  now rewrite <- canonical_flags.
Qed.

(** The authority [creds ++ hostport] in front of [tail] is found and
    its credentials are dropped. *)
Lemma authority_split creds hostport tail :
  is_credentials creds ->
  free_of is_slash hostport = true -> free_of is_at hostport = true ->
  starts_with is_slash tail = true ->
  break is_slash (creds ++ hostport ++ tail) = (creds ++ hostport, tail)
  /\ strip_credentials (creds ++ hostport) = hostport.
Proof.
  intros Hc Hslash Hat Htail. split.
  - rewrite <- append_assoc. apply break_app; [|exact Htail].
    rewrite free_of_app, Hslash, andb_true_r.
    destruct Hc as [-> | (user & -> & Hu)]; [reflexivity|].
    now rewrite free_of_app, Hu.
  - unfold strip_credentials.
    destruct Hc as [-> | (user & -> & _)].
    + now rewrite after_last_at_none.
    + rewrite append_assoc. now rewrite after_last_at_app.
Qed.

Lemma malformed_rejected uri : Malformed uri -> parseMqttUri uri = None.
Proof.
  intros H. unfold parseMqttUri. destruct H as
    [uri Hno | sch rest Hsch Hunknown
     | sch creds porttext tail Hsch Hc Hslash Hat Hcolon Htail
     | sch creds h digits tail Hsch Hc Hfree Hslash Hat Hport Htail].
  - destruct (split_scheme uri) as [[a b]|] eqn:Hs; [|reflexivity].
    apply split_scheme_spec in Hs. now destruct (Hno a b).
  - now rewrite (split_scheme_app _ _ Hsch), Hunknown.
  - rewrite (split_scheme_app _ _ Hsch).
    destruct (scheme_of_text sch); [|reflexivity].
    destruct (authority_split creds porttext tail Hc Hslash Hat Htail)
      as [-> ->].
    change porttext with ("" ++ porttext).
    now rewrite (break_app is_colon "" porttext eq_refl Hcolon).
  - rewrite (split_scheme_app _ _ Hsch).
    destruct (scheme_of_text sch); [|reflexivity].
    destruct (delim_free_parts _ Hfree) as (Hhs & Hhc & Hha).
    assert (Hs' : free_of is_slash (h ++ ":" ++ digits) = true)
      by now rewrite !free_of_app, Hhs, Hslash.
    assert (Ha' : free_of is_at (h ++ ":" ++ digits) = true)
      by now rewrite !free_of_app, Hha, Hat.
    replace (h ++ ":" ++ digits ++ tail) with ((h ++ ":" ++ digits) ++ tail)
      by now rewrite !append_assoc.
    destruct (authority_split creds (h ++ ":" ++ digits) tail Hc Hs' Ha' Htail)
      as [-> ->].
    rewrite (break_app is_colon h (":" ++ digits) Hhc eq_refl).
    destruct (is_empty h); [reflexivity|]. cbn [append]. now rewrite Hport.
Qed.

(** C6, amended.  For every locator that [parseMqttUri] accepts, parsing
    what [buildMqttUri] emits for the parsed parts succeeds and gives back
    the same scheme, host and port.  The path is given back for a WebSocket
    scheme; for mqtt and mqtts the builder leaves the path out and the
    second parse yields the default path ["/"].  Hence the two results are
    equal field by field whenever the scheme is ws or wss or the first
    parse had the default path. *)
Theorem C6_reparse_fields uri p :
  parseMqttUri uri = Some p ->
  exists q,
    parseMqttUri (buildMqttUri p) = Some q
    /\ scheme q = scheme p /\ host q = host p /\ port q = port p
    /\ path q = (if isWebSocket p then path p else "/")
    /\ (isWebSocket p = true \/ path p = "/" -> q = p).
Proof.
  intros Hp. apply parseMqttUri_parsed in Hp.
  eexists. split; [now apply parse_build|]. cbn.
  repeat split. intros Hsame. destruct p as [sc h pt pa]; cbn in *.
  f_equal. destruct Hsame as [-> | ->]; [reflexivity|].
  now destruct (isWebSocket _).
Qed.

Lemma C6_reparse_fields_witness :
  parseMqttUri "wss://user:pw@broker.example.com:9001/mqtt"
  = Some (mkUriParts "wss" "broker.example.com" 9001 "/mqtt")
  /\ exists q,
       parseMqttUri
         (buildMqttUri (mkUriParts "wss" "broker.example.com" 9001 "/mqtt"))
       = Some q
       /\ q = mkUriParts "wss" "broker.example.com" 9001 "/mqtt".
Proof.
  split; [reflexivity|].
  destruct (C6_reparse_fields
              "wss://user:pw@broker.example.com:9001/mqtt"
              (mkUriParts "wss" "broker.example.com" 9001 "/mqtt") eq_refl)
    as (q & Hq & _ & _ & _ & _ & Hsame).
  exists q. split; [exact Hq | apply Hsame; left; reflexivity].
Defined.

(** C6 as stated fails: the locator [mqtt://h/x] parses with path ["/x"],
    is built as [mqtt://h], and that parses with path ["/"]. *)
Lemma C6_reparse_counterexample :
  parseMqttUri "mqtt://h/x" = Some (mkUriParts "mqtt" "h" 1883 "/x")
  /\ buildMqttUri (mkUriParts "mqtt" "h" 1883 "/x") = "mqtt://h"
  /\ reparse "mqtt://h/x" = Some (mkUriParts "mqtt" "h" 1883 "/")
  /\ reparse "mqtt://h/x" <> parseMqttUri "mqtt://h/x".
Proof. repeat split; try reflexivity. discriminate. Qed.

(** A locator without ["://"] is one that [split_scheme] cannot split. *)
Lemma no_separator uri :
  split_scheme uri = None -> forall a b, uri <> a ++ "://" ++ b.
Proof.
  intros Hnone a b ->. revert Hnone.
  induction a as [|c a IH]; [cbn; discriminate|]. simpl.
  destruct (if is_colon c then _ else None); [discriminate|].
  destruct (split_scheme _) as [[x y]|]; [discriminate|].
  intros _. exact (IH eq_refl).
Qed.

(** The locators of the spec's test list. *)
Example parse_valid_locators :
  parseMqttUri "mqtt://h:1883" = Some (mkUriParts "mqtt" "h" 1883 "/")
  /\ parseMqttUri "mqtts://h" = Some (mkUriParts "mqtts" "h" 8883 "/")
  /\ parseMqttUri "ws://h/p" = Some (mkUriParts "ws" "h" 1883 "/p")
  /\ parseMqttUri "wss://h:9001/p" = Some (mkUriParts "wss" "h" 9001 "/p")
  /\ parseMqttUri "MQTTS://user:secret@h:8884"
     = Some (mkUriParts "mqtts" "h" 8884 "/").
Proof. repeat split. Qed.

Example malformed_locators :
  Malformed "mqtt//h"
  /\ Malformed ("http" ++ "://" ++ "h")
  /\ Malformed ("mqtt" ++ "://" ++ "" ++ ":1883" ++ "")
  /\ Malformed ("mqtt" ++ "://" ++ "user@" ++ "" ++ "/p")
  /\ Malformed ("mqtt" ++ "://" ++ "" ++ "h" ++ ":" ++ "65536" ++ "")
  /\ Malformed ("wss" ++ "://" ++ "" ++ "h" ++ ":" ++ "port" ++ "/p").
Proof.
  repeat split.
  - apply NoSeparator, no_separator. reflexivity.
  - now apply UnknownScheme.
  - apply EmptyHost; try reflexivity. now left.
  - apply EmptyHost; try reflexivity. right. now exists "user".
  - apply InvalidPort; try reflexivity. now left.
  - apply InvalidPort; try reflexivity. now left.
Qed.

End UriFacts.

(* ================================================================== *)
(** ** The client *)

Module ClientFacts.
Import Esp Run Client Measure Negotiation.
Local Open Scope run_scope.

(** *** Counting observations *)

Lemma count_app p t1 t2 : count p (t1 ++ t2) = (count p t1 + count p t2)%nat.
Proof. unfold count. now rewrite filter_app, length_app. Qed.

Lemma hops_from_app legacy t1 t2 :
  self_contained t2 ->
  hops_from legacy (t1 ++ t2) = (hops_from legacy t1 + fallback_hops t2)%nat.
Proof.
  intros H2. revert legacy.
  induction t1 as [|o t1 IH]; intros legacy; simpl; [apply H2|].
  destruct o; auto. destruct (legacy && (r =? ESP_OK)); simpl; auto.
Qed.

Lemma self_contained_app t1 t2 :
  self_contained t1 -> self_contained t2 -> self_contained (t1 ++ t2).
Proof.
  intros H1 H2 legacy. unfold fallback_hops.
  rewrite !hops_from_app by assumption. now rewrite H1.
Qed.

Lemma fallback_hops_app t1 t2 :
  self_contained t2 ->
  fallback_hops (t1 ++ t2) = (fallback_hops t1 + fallback_hops t2)%nat.
Proof. apply hops_from_app. Qed.

Lemma self_contained_quiet t :
  count is_start t = 0%nat -> self_contained t /\ fallback_hops t = 0%nat.
Proof.
  unfold count, self_contained, fallback_hops. generalize false.
  induction t as [|o t IH]; intros b; simpl; [auto|].
  destruct o; simpl; try discriminate; intros H;
    (split; [intros legacy|]); try (apply IH; exact H);
    rewrite ?(proj2 (IH _ H)); try reflexivity;
    try (now rewrite (proj1 (IH true H)), (proj2 (IH false H)));
    now rewrite (proj1 (IH legacy H)), (proj2 (IH false H)).
Qed.

Section WithEngine.
Context {E : Engine}.
Implicit Types s : Sys E.

(** *** Running one attempt *)

Lemma bind_done {A B} (m : Action E A) (f : A -> Action E B) s a s1 t1 :
  m s = Done a s1 t1 ->
  bind m f s = match f a s1 with
               | Undefined => Undefined
               | Done b s2 t2 => Done b s2 (t1 ++ t2)
               end.
Proof. intros H. unfold bind. now rewrite H. Qed.

Lemma buildUriIfNeeded_run s :
  buildUriIfNeeded s
  = Done tt (mkSys (set_uri (needed_uri (obj s)) (obj s)) (world s)) [].
Proof.
  destruct s as [c w]. destruct c. unfold buildUriIfNeeded, needed_uri, uri_text.
  unfold bind, assign, this, when, path_is_set, ret. cbn.
  destruct _useWebSocket0, _secure0, _path0 as [[|ch p]|]; reflexivity.
Qed.

Lemma connectWithProtocol_run protocol s :
  exists created result w,
    connectWithProtocol protocol s
    = Done (attempt_ok created result)
        (mkSys (set_client created (set_uri (needed_uri (obj s)) (obj s))) w)
        (attempt_obs (_client (obj s))
           (mqtt_cfg (set_uri (needed_uri (obj s)) (obj s)) protocol)
           created result).
Proof.
  unfold connectWithProtocol.
  rewrite (bind_done _ _ _ _ _ _ (buildUriIfNeeded_run s)).
  set (c := set_uri (needed_uri (obj s)) (obj s)).
  unfold bind, this, engine_, engine, assign, ret, attempt_obs, attempt_ok. cbn.
  replace (_client c) with (_client (obj s)) by (destruct s as [[]]; reflexivity).
  destruct (_client (obj s)) as [old|]; cbn.
  - destruct (esp_mqtt_client_init E _ _) as [[h|] w1] eqn:Hinit; cbn.
    + destruct (esp_mqtt_client_start E h _) as [r w2] eqn:Hstart.
      exists (Some h), r, w2. cbn. reflexivity.
    + exists None, 0, w1. reflexivity.
  - destruct (esp_mqtt_client_init E _ _) as [[h|] w1] eqn:Hinit; cbn.
    + destruct (esp_mqtt_client_start E h _) as [r w2] eqn:Hstart.
      exists (Some h), r, w2. cbn. reflexivity.
    + exists None, 0, w1. reflexivity.
Qed.

Lemma attempt_measures old cfg created result :
  self_contained (attempt_obs old cfg created result)
  /\ fallback_hops (attempt_obs old cfg created result)
     = (if (session_protocol_ver cfg =? MQTT_PROTOCOL_V_3_1_1)
           && attempt_ok created result then 1%nat else 0%nat)
  /\ legacy_attempts (attempt_obs old cfg created result)
     = (if session_protocol_ver cfg =? MQTT_PROTOCOL_V_3_1_1
        then 1%nat else 0%nat)
  /\ count is_init (attempt_obs old cfg created result) = 1%nat
  /\ disconnect_reports (attempt_obs old cfg created result) = 0%nat.
Proof.
  unfold self_contained, fallback_hops, legacy_attempts, disconnect_reports,
    count, attempt_obs, attempt_ok.
  destruct old, created; cbn;
    destruct (session_protocol_ver cfg =? MQTT_PROTOCOL_V_3_1_1);
    try destruct (result =? ESP_OK); cbn; auto.
Qed.

Local Arguments connectWithProtocol : simpl never.
Local Arguments attempt_obs : simpl never.
Local Arguments attempt_ok : simpl never.

Ltac attempt_at H :=
  match goal with
  | |- context [connectWithProtocol ?p ?st] =>
      let created := fresh "created" in
      let result := fresh "result" in
      let w := fresh "w" in
      destruct (connectWithProtocol_run p st) as (created & result & w & H);
      rewrite H
  end.

(** *** [connect] *)

Lemma connect_run id s :
  exists ok s' t,
    connect (Some id) s = Done ok s' t
    /\ ConnectRun id s ok s' t
    /\ _enableFallback (obj s') = _enableFallback (obj s)
    /\ _connected (obj s') = _connected (obj s)
    /\ _disconnectCallback (obj s') = _disconnectCallback (obj s).
Proof.
  unfold connect, deref, bind, ret, assign, this. cbn.
  destruct (Text.is_empty id) eqn:Hid.
  - do 3 eexists. split; [reflexivity|]. split; [now constructor|].
    destruct s as [[]]; auto.
  - attempt_at H5. cbn.
    destruct (attempt_ok created result) eqn:Hok5; cbn.
    + do 3 eexists. split; [reflexivity|]. rewrite app_nil_r.
      split; [eapply Preferred; eauto; reflexivity|].
      destruct s as [[]]; auto.
    + destruct (_enableFallback (obj s)) eqn:Hen.
      * attempt_at H4. cbn.
        destruct (attempt_ok created0 result0) eqn:Hok4; cbn.
        -- do 3 eexists. split; [reflexivity|]. rewrite app_nil_r.
           split; [|destruct s as [[]]; auto].
           refine (eq_ind _ (fun b => ConnectRun id s b _ _) _ _ Hok4).
           eapply FellBack; eauto; try reflexivity.
           now rewrite Hok4.
        -- do 3 eexists. split; [reflexivity|]. rewrite app_nil_r.
           split; [|destruct s as [[]]; auto].
           refine (eq_ind _ (fun b => ConnectRun id s b _ _) _ _ Hok4).
           eapply FellBack; eauto; try reflexivity.
           rewrite Hok4. destruct s as [[]]; reflexivity.
      * do 3 eexists. split; [reflexivity|]. rewrite app_nil_r.
        split; [|destruct s as [[]]; auto].
        eapply Failed; eauto; reflexivity.
Qed.

(** *** Engine events *)

Lemma invoke_report (c : MqttClient) s :
  invoke (_disconnectCallback c) InvokeDisconnect s = Done tt s (report c).
Proof. unfold invoke, report, emit, ret. now destruct (_disconnectCallback c). Qed.

Lemma onDisconnectedInternal_run s :
  exists s' t,
    onDisconnectedInternal s = Done tt s' t
    /\ DisconnectRun s s' t
    /\ _connected (obj s') = false
    /\ _enableFallback (obj s') = _enableFallback (obj s)
    /\ _disconnectCallback (obj s') = _disconnectCallback (obj s).
Proof.
  unfold onDisconnectedInternal, reconnectWithFallback, emit,
    bind, ret, assign, this. cbn.
  fold (fallback_due (obj s)).
  destruct (fallback_due (obj s)) eqn:Hdue.
  - attempt_at H4. cbn.
    assert (Hu : _usingFallback (obj s) = false).
    { unfold fallback_due in Hdue.
      destruct (_usingFallback (obj s)); [|reflexivity].
      now rewrite andb_false_r in Hdue. }
    destruct (attempt_ok created result) eqn:Hok; cbn.
    + do 2 eexists. split; [reflexivity|]. rewrite app_nil_r.
      split; [eapply Healed; eauto; reflexivity|].
      destruct s as [[]]; auto.
    + rewrite invoke_report.
      do 2 eexists. split; [reflexivity|].
      split; [|destruct s as [[]]; auto].
      replace (report _) with (report (obj s))
        by (destruct s as [[]]; reflexivity).
      eapply ReportedAfterAttempt; eauto; reflexivity.
  - rewrite invoke_report. cbn.
    do 2 eexists. split; [reflexivity|].
    split; [now constructor | destruct s as [[]]; auto].
Qed.

Local Arguments UriUtils.parseMqttUri : simpl never.

Ltac crunch :=
  repeat match goal with
         | H : Done _ _ _ = Done _ _ _ |- _ => inversion H; subst; clear H
         | H : Undefined = Done _ _ _ |- _ => discriminate H
         | H : context [match ?x with _ => _ end] |- _ =>
             destruct x eqn:?; cbn in H
         | H : context [if ?x then _ else _] |- _ =>
             destruct x eqn:?; cbn in H
         end.

(** A call other than [connect] that is not an engine event leaves the
    engine client, the session flags and the negotiated protocol alone
    and makes no attempt. *)
Lemma plain_call c s s' t :
  is_connect c = false -> is_event c = false ->
  call c s = Done tt s' t ->
  count is_init t = 0%nat /\ count is_start t = 0%nat
  /\ disconnect_reports t = 0%nat
  /\ _client (obj s') = _client (obj s)
  /\ _usingFallback (obj s') = _usingFallback (obj s)
  /\ _connected (obj s') = _connected (obj s)
  /\ (enables_fallback c = false ->
      _enableFallback (obj s) = false -> _enableFallback (obj s') = false).
Proof.
  destruct s as [c0 w]. destruct c0.
  destruct c; try discriminate; intros _ _ H;
    unfold call, discard, begin, parseUriComponents, setServer,
      setWebSocket, setPath, setCredentials, setKeepalive, setCACert,
      setClientCert, setClientKey, setInsecure, setProtocolFallback,
      onMessage, onConnect, onDisconnect, disconnect, isConnected, loop,
      publish, subscribe, unsubscribe, when, is_set, deref, engine, engine_,
      bind, ret, assign, this, undefined in H;
    cbn in H; crunch; cbn; repeat split; auto; try discriminate;
    destruct enableFallback; auto; discriminate.
Qed.

Lemma quiet_event id event s s' t :
  id <> MQTT_EVENT_DISCONNECTED ->
  mqtt_event_handler id event s = Done tt s' t ->
  count is_init t = 0%nat /\ count is_start t = 0%nat
  /\ disconnect_reports t = 0%nat
  /\ _client (obj s') = _client (obj s)
  /\ _usingFallback (obj s') = _usingFallback (obj s)
  /\ _enableFallback (obj s') = _enableFallback (obj s).
Proof.
  destruct s as [c0 w]. destruct c0.
  destruct id; try congruence; intros _ H;
    unfold mqtt_event_handler, onConnectedInternal, onDataInternal, invoke,
      emit, bind, ret, assign, this, undefined in H;
    cbn in H; crunch; cbn; repeat split; auto.
Qed.

Lemma no_init_no_legacy t : count is_init t = 0%nat -> legacy_attempts t = 0%nat.
Proof.
  unfold legacy_attempts, count. induction t as [|o t IH]; [reflexivity|].
  destruct o; cbn; auto; discriminate.
Qed.

Lemma report_quiet (c : MqttClient) :
  count is_init (report c) = 0%nat /\ count is_start (report c) = 0%nat.
Proof. unfold report. now destruct (_disconnectCallback c). Qed.

(** Measures of the run of a disconnect event. *)
Lemma disconnect_run_measures s s' t :
  DisconnectRun s s' t ->
  self_contained t
  /\ count is_init t = (if fallback_due (obj s) then 1%nat else 0%nat)
  /\ legacy_attempts t = (if fallback_due (obj s) then 1%nat else 0%nat)
  /\ (fallback_hops t = 0%nat
      \/ fallback_hops t = 1%nat /\ fallback_due (obj s) = true
         /\ _usingFallback (obj s') = true).
Proof.
  intros [Hdue | old cfg created result s1 Hdue Hv Hok Hu
               | old cfg created result s1 Hdue Hv Hok Hu]; rewrite Hdue.
  - destruct (report_quiet (obj s)) as [Hi Hs].
    destruct (self_contained_quiet _ Hs) as [Hsc Hh].
    repeat split; auto using no_init_no_legacy.
  - destruct (attempt_measures old cfg created result)
      as (Hsc & Hh & Hl & Hi & _).
    rewrite Hv, Hok in Hh. rewrite Hv in Hl. cbn in Hh, Hl.
    repeat split; auto.
  - destruct (attempt_measures old cfg created result)
      as (Hsc & Hh & Hl & Hi & _).
    rewrite Hv, Hok in Hh. rewrite Hv in Hl. cbn in Hh, Hl.
    destruct (report_quiet (obj s)) as [Hri Hrs].
    destruct (self_contained_quiet _ Hrs) as [Hrsc Hrh].
    assert (Hsc' : self_contained
                     (attempt_obs old cfg created result ++ report (obj s)))
      by now apply self_contained_app.
    assert (Hh' : fallback_hops
                    (attempt_obs old cfg created result ++ report (obj s))
                  = 0%nat)
      by now rewrite fallback_hops_app, Hh, Hrh.
    pose proof (no_init_no_legacy _ Hri) as Hrl.
    unfold legacy_attempts, count in *.
    repeat split; cbn;
      rewrite ?filter_app, ?length_app, ?Hi, ?Hri, ?Hl, ?Hrl; auto.
Qed.

(** *** Disconnect events *)

(** C1.  For every disconnect event, with a disconnect callback
    registered: the callback is invoked exactly once, except when a
    fallback attempt is made and starts, in which case it is not invoked
    (reports and fallback hops add up to one).  A fallback attempt is made
    exactly when the session was up, fallback is enabled and the legacy
    protocol is not in use; without one, the report is all that happens;
    with one, the report comes last, after the attempt's engine calls. *)
Theorem C1_disconnect_reported_once s event cb :
  _disconnectCallback (obj s) = Some cb ->
  exists s' t,
    mqtt_event_handler MQTT_EVENT_DISCONNECTED event s = Done tt s' t
    /\ (disconnect_reports t + fallback_hops t = 1)%nat
    /\ legacy_attempts t = (if fallback_due (obj s) then 1%nat else 0%nat)
    /\ (fallback_due (obj s) = false -> t = [InvokeDisconnect cb])
    /\ exists before,
         disconnect_reports before = 0%nat
         /\ t = (before ++ (if Nat.eqb (fallback_hops t) 0
                            then [InvokeDisconnect cb] else []))%list.
Proof.
  intros Hcb.
  destruct (onDisconnectedInternal_run s) as (s' & t & Hrun & Hshape & _).
  exists s', t. split; [exact Hrun|].
  destruct (disconnect_run_measures _ _ _ Hshape) as (_ & _ & Hl & _).
  split; [|split; [exact Hl|]]; clear Hl;
    destruct Hshape as [Hdue | old cfg created result s1 Hdue Hv Hok Hu
                        | old cfg created result s1 Hdue Hv Hok Hu];
    unfold report; rewrite ?Hcb;
    try (destruct (attempt_measures old cfg created result)
          as (Hsc & Hh & _ & _ & Hr);
         rewrite Hv, Hok in Hh; cbn in Hh).
  - reflexivity.
  - change (disconnect_reports (Delay 1000 :: ?x)) with (disconnect_reports x).
    change (fallback_hops (Delay 1000 :: ?x)) with (fallback_hops x).
    now rewrite Hr, Hh.
  - change (disconnect_reports (Delay 1000 :: ?x)) with (disconnect_reports x).
    change (fallback_hops (Delay 1000 :: ?x)) with (fallback_hops x).
    unfold disconnect_reports in *. rewrite count_app, Hr.
    rewrite fallback_hops_app, Hh; [reflexivity|].
    now apply self_contained_quiet.
  - split; [reflexivity|]. exists []. split; reflexivity.
  - split; [congruence|]. exists (Delay 1000 :: attempt_obs old cfg created result).
    split; [exact Hr|].
    change (fallback_hops (Delay 1000 :: ?x)) with (fallback_hops x).
    rewrite Hh. cbn. now rewrite app_nil_r.
  - split; [congruence|]. exists (Delay 1000 :: attempt_obs old cfg created result).
    split; [exact Hr|].
    change (fallback_hops (Delay 1000 :: ?x)) with (fallback_hops x).
    rewrite fallback_hops_app, Hh by now apply self_contained_quiet.
    reflexivity.
Qed.

(** *** One call, then sequences of calls *)

Lemma connect_run_measures id s ok s' t :
  ConnectRun id s ok s' t ->
  self_contained t
  /\ (fallback_hops t = 0%nat
      \/ fallback_hops t = 1%nat /\ _usingFallback (obj s') = true)
  /\ (_enableFallback (obj s) = false ->
      legacy_attempts t = 0%nat /\ (count is_init t <= 1)%nat)
  /\ (_enableFallback (obj s) = true -> ok = false ->
      Text.is_empty id = false -> legacy_attempts t = 1%nat).
Proof.
  intros [Hid | old cfg created result s1 Hid Hv Hok Hu
          | old cfg created result s1 Hid Hv Hok Hen Hu
          | old cfg created result old' cfg' created' result' s1
              Hid Hv Hok Hen Hv' Hu].
  - destruct (self_contained_quiet [] eq_refl). repeat split; auto; congruence.
  - destruct (attempt_measures old cfg created result) as (Hsc & Hh & Hl & Hi & _).
    rewrite Hv in Hh, Hl. cbn in Hh, Hl. rewrite Hi.
    repeat split; auto; congruence.
  - destruct (attempt_measures old cfg created result) as (Hsc & Hh & Hl & Hi & _).
    rewrite Hv in Hh, Hl. cbn in Hh, Hl. rewrite Hi.
    repeat split; auto; congruence.
  - destruct (attempt_measures old cfg created result) as (Hsc & Hh & Hl & Hi & _).
    destruct (attempt_measures old' cfg' created' result')
      as (Hsc' & Hh' & Hl' & Hi' & _).
    rewrite Hv in Hh, Hl. rewrite Hv' in Hh', Hl'. cbn in Hh, Hl, Hh', Hl'.
    unfold legacy_attempts in *.
    rewrite fallback_hops_app, Hh, Hh', !count_app, Hl, Hl' by assumption.
    repeat split; auto using self_contained_app; try congruence.
    destruct (attempt_ok created' result'); cbn in *; auto.
Qed.

Lemma call_step c s s' t :
  call c s = Done tt s' t ->
  self_contained t
  /\ (fallback_hops t = 0%nat
      \/ fallback_hops t = 1%nat /\ _usingFallback (obj s') = true)
  /\ (is_connect c = false -> _usingFallback (obj s) = true ->
      _usingFallback (obj s') = true /\ count is_init t = 0%nat)
  /\ (enables_fallback c = false -> _enableFallback (obj s) = false ->
      _enableFallback (obj s') = false /\ legacy_attempts t = 0%nat).
Proof.
  intros H.
  destruct (is_connect c) eqn:Hc; [|destruct (is_event c) eqn:He].
  - destruct c; try discriminate. destruct clientId as [id|]; [|discriminate].
    cbn in H. unfold discard, bind in H.
    destruct (connect_run id s) as (ok & s1 & t1 & Hrun & Hshape & Hen & _).
    rewrite Hrun in H. cbn in H. inversion H; subst. rewrite app_nil_r.
    destruct (connect_run_measures _ _ _ _ _ Hshape) as (Hsc & Hh & Hl & _).
    repeat split; auto; try discriminate; try (now apply Hl); congruence.
  - destruct c; try discriminate. unfold call in H.
    destruct event_id;
      try (apply quiet_event in H as (Hi & Hs & _ & _ & Hu & Hen);
           [|discriminate];
           destruct (self_contained_quiet _ Hs);
           repeat split; auto using no_init_no_legacy; congruence).
    change (onDisconnectedInternal s = Done tt s' t) in H.
    destruct (onDisconnectedInternal_run s) as (s1 & t1 & Hrun & Hshape & _ & Hen & _).
    rewrite Hrun in H. inversion H; subst.
    destruct (disconnect_run_measures _ _ _ Hshape) as (Hsc & Hi & Hl & Hh).
    assert (Hdue : _usingFallback (obj s) = true \/ _enableFallback (obj s) = false
                   -> fallback_due (obj s) = false).
    { unfold fallback_due. intros [-> | ->]; cbn;
        now rewrite ?andb_false_r. }
    repeat split; auto; try tauto.
    + assert (Hno : fallback_due (obj s) = false) by auto.
      destruct Hshape; try congruence. destruct s as [[]]; assumption.
    + rewrite Hi, Hdue; auto.
    + congruence.
    + rewrite Hl, Hdue; auto.
  - apply plain_call in H as (Hi & Hs & _ & _ & Hu & _ & Hen); auto.
    destruct (self_contained_quiet _ Hs).
    repeat split; auto using no_init_no_legacy; congruence.
Qed.

Lemma calls_cons c cs s s' t :
  calls (c :: cs) s = Done tt s' t ->
  exists s1 t1 t2,
    call c s = Done tt s1 t1 /\ calls cs s1 = Done tt s' t2
    /\ t = (t1 ++ t2)%list.
Proof.
  change (calls (c :: cs) s) with (bind (call c) (fun _ => calls cs) s).
  unfold bind. destruct (call c s) as [[] s1 t1|]; [|discriminate].
  destruct (calls cs s1) as [[] s2 t2|] eqn:H2; [|discriminate].
  intros [= <- <-]. now exists s1, t1, t2.
Qed.

Lemma calls_nil s s' t : calls [] s = Done tt s' t -> s' = s /\ t = [].
Proof. cbn. unfold ret. now intros [= <- <-]. Qed.

Lemma calls_self_contained cs s s' t :
  calls cs s = Done tt s' t -> self_contained t.
Proof.
  revert s t. induction cs as [|c cs IH]; intros s t H.
  - apply calls_nil in H as [_ ->]. now apply self_contained_quiet.
  - apply calls_cons in H as (s1 & t1 & t2 & H1 & H2 & ->).
    apply self_contained_app; [apply (call_step _ _ _ _ H1) | eauto].
Qed.

Lemma no_init_no_hops t : count is_init t = 0%nat -> fallback_hops t = 0%nat.
Proof.
  unfold count, fallback_hops. induction t as [|o t IH]; [reflexivity|].
  destruct o; cbn; auto; discriminate.
Qed.

(** Once the legacy protocol is in use, calls other than [connect] make no
    attempt and leave the legacy protocol in use. *)
Lemma legacy_session_calls cs s s' t :
  none_of is_connect cs = true -> _usingFallback (obj s) = true ->
  calls cs s = Done tt s' t ->
  count is_init t = 0%nat /\ _usingFallback (obj s') = true.
Proof.
  revert s t. induction cs as [|c cs IH]; intros s t Hcs Hu H.
  - apply calls_nil in H as [-> ->]. auto.
  - apply calls_cons in H as (s1 & t1 & t2 & H1 & H2 & ->).
    cbn in Hcs. apply andb_true_iff in Hcs as [Hc Hcs].
    apply negb_true_iff in Hc.
    destruct (call_step _ _ _ _ H1) as (_ & _ & Hleg & _).
    destruct (Hleg Hc Hu) as [Hu1 Hi1].
    destruct (IH _ _ Hcs Hu1 H2) as [Hi2 Hu2].
    now rewrite count_app, Hi1, Hi2.
Qed.

Lemma calls_hops_bound cs s s' t :
  none_of is_connect cs = true ->
  calls cs s = Done tt s' t -> (fallback_hops t <= 1)%nat.
Proof.
  revert s t. induction cs as [|c cs IH]; intros s t Hcs H.
  - apply calls_nil in H as [_ ->]. cbn. lia.
  - apply calls_cons in H as (s1 & t1 & t2 & H1 & H2 & ->).
    cbn in Hcs. apply andb_true_iff in Hcs as [_ Hcs].
    rewrite fallback_hops_app by eauto using calls_self_contained.
    destruct (call_step _ _ _ _ H1) as (_ & [Hh | [Hh Hu]] & _); rewrite Hh.
    + apply (IH _ _ Hcs H2).
    + destruct (legacy_session_calls _ _ _ _ Hcs Hu H2) as [Hi _].
      rewrite (no_init_no_hops _ Hi). lia.
Qed.

Lemma fallback_off_calls cs s s' t :
  none_of enables_fallback cs = true -> _enableFallback (obj s) = false ->
  calls cs s = Done tt s' t ->
  legacy_attempts t = 0%nat /\ _enableFallback (obj s') = false.
Proof.
  revert s t. induction cs as [|c cs IH]; intros s t Hcs Hen H.
  - apply calls_nil in H as [-> ->]. auto.
  - apply calls_cons in H as (s1 & t1 & t2 & H1 & H2 & ->).
    cbn in Hcs. apply andb_true_iff in Hcs as [Hc Hcs].
    apply negb_true_iff in Hc.
    destruct (call_step _ _ _ _ H1) as (_ & _ & _ & Hoff).
    destruct (Hoff Hc Hen) as [Hen1 Hl1].
    destruct (IH _ _ Hcs Hen1 H2) as [Hl2 Hen2].
    unfold legacy_attempts in *. now rewrite count_app, Hl1, Hl2.
Qed.

Lemma disconnect_without_fallback s :
  fallback_due (obj s) = false ->
  onDisconnectedInternal s
  = Done tt (mkSys (set_connected false (obj s)) (world s)) (report (obj s)).
Proof.
  intros Hdue. unfold onDisconnectedInternal, bind, ret, assign, this. cbn.
  fold (fallback_due (obj s)). rewrite Hdue, invoke_report. reflexivity.
Qed.

(** A run's client is alive exactly when its last attempt started. *)
Lemma alive_from_app alive t1 t2 :
  alive_from alive (t1 ++ t2) = alive_from (alive_from alive t1) t2.
Proof.
  revert alive. induction t1 as [|o t1 IH]; intros alive; [reflexivity|].
  destruct o; cbn; auto.
Qed.

Lemma alive_after_attempt alive old cfg created result :
  alive_from alive (attempt_obs old cfg created result)
  = attempt_ok created result.
Proof. unfold attempt_obs, attempt_ok. now destruct old, created. Qed.

Lemma dead_stays t : count is_start t = 0%nat -> alive_from false t = false.
Proof.
  unfold count. induction t as [|o t IH]; [reflexivity|].
  destruct o; cbn; auto; discriminate.
Qed.

(** One call makes no legacy attempt, or it makes one, after which the
    legacy protocol is in use or the engine client is not started. *)
Lemma call_attempts c s s' t :
  call c s = Done tt s' t ->
  legacy_attempts t = 0%nat
  \/ legacy_attempts t = 1%nat
     /\ (_usingFallback (obj s') = true \/ forall alive, alive_from alive t = false).
Proof.
  intros H.
  destruct (is_connect c) eqn:Hc; [|destruct (is_event c) eqn:He].
  - destruct c; try discriminate. destruct clientId as [id|]; [|discriminate].
    cbn in H. unfold discard, bind in H.
    destruct (connect_run id s) as (ok & s1 & t1 & Hrun & Hshape & _).
    rewrite Hrun in H. cbn in H. inversion H; subst. rewrite app_nil_r.
    destruct Hshape as [Hid | old cfg created result s1 _ Hv Hok Hu
                        | old cfg created result s1 _ Hv Hok Hen' Hu
                        | old cfg created result old' cfg' created' result' s1
                            _ Hv Hok _ Hv' Hu].
    + now left.
    + left. destruct (attempt_measures old cfg created result) as (_ & _ & Hl & _).
      now rewrite Hv in Hl.
    + left. destruct (attempt_measures old cfg created result) as (_ & _ & Hl & _).
      now rewrite Hv in Hl.
    + right.
      destruct (attempt_measures old cfg created result) as (_ & _ & Hl & _).
      destruct (attempt_measures old' cfg' created' result') as (_ & _ & Hl' & _).
      rewrite Hv in Hl. rewrite Hv' in Hl'. unfold legacy_attempts in *.
      rewrite count_app, Hl, Hl'. split; [reflexivity|].
      destruct (attempt_ok created' result') eqn:Hok'.
      * left. now rewrite Hu.
      * right. intros alive. now rewrite alive_from_app, alive_after_attempt.
  - destruct c; try discriminate. unfold call in H.
    destruct event_id;
      try (apply quiet_event in H as (Hi & _); [|discriminate];
           left; now apply no_init_no_legacy).
    change (onDisconnectedInternal s = Done tt s' t) in H.
    destruct (onDisconnectedInternal_run s) as (s1 & t1 & Hrun & Hshape & _).
    rewrite Hrun in H. inversion H; subst.
    destruct (disconnect_run_measures _ _ _ Hshape) as (_ & _ & Hl & _).
    destruct Hshape as [Hdue | old cfg created result s1 Hdue Hv Hok Hu
                        | old cfg created result s1 Hdue Hv Hok Hu];
      rewrite Hdue in Hl; auto.
    right. split; [exact Hl|]. right. intros alive.
    change (alive_from alive (attempt_obs old cfg created result ++ report (obj s))
            = false).
    rewrite alive_from_app, alive_after_attempt, Hok.
    apply dead_stays, report_quiet.
  - apply plain_call in H as (Hi & _); auto.
    left. now apply no_init_no_legacy.
Qed.

(** Without a started engine client no event is admissible, so nothing
    but [connect] can make an attempt. *)
Lemma dead_client_calls cs s s' t :
  none_of is_connect cs = true -> admissible false cs s ->
  calls cs s = Done tt s' t -> count is_init t = 0%nat.
Proof.
  revert s t. induction cs as [|c cs IH]; intros s t Hcs Hadm H.
  - now apply calls_nil in H as [_ ->].
  - apply calls_cons in H as (s1 & t1 & t2 & H1 & H2 & ->).
    cbn in Hcs. apply andb_true_iff in Hcs as [Hc Hcs].
    apply negb_true_iff in Hc.
    destruct Hadm as [Hev Hadm]. rewrite H1 in Hadm.
    assert (He : is_event c = false)
      by (destruct (is_event c); [now specialize (Hev eq_refl) | reflexivity]).
    apply plain_call in H1 as (Hi & Hs & _); auto.
    rewrite (dead_stays _ Hs) in Hadm.
    now rewrite count_app, Hi, (IH _ _ Hcs Hadm H2).
Qed.

Lemma admissible_attempts cs s s' t alive :
  none_of is_connect (tl cs) = true -> admissible alive cs s ->
  calls cs s = Done tt s' t -> (legacy_attempts t <= 1)%nat.
Proof.
  revert s t alive. induction cs as [|c cs IH]; intros s t alive Hcs Hadm H.
  - apply calls_nil in H as [_ ->]. cbn. lia.
  - apply calls_cons in H as (s1 & t1 & t2 & H1 & H2 & ->).
    cbn in Hcs. destruct Hadm as [_ Hadm]. rewrite H1 in Hadm.
    unfold legacy_attempts. rewrite count_app. fold (legacy_attempts t1).
    destruct (call_attempts _ _ _ _ H1) as [-> | [-> [Hu | Hdead]]].
    + apply (IH s1 t2 (alive_from alive t1)); auto.
      destruct cs; [reflexivity|]. cbn in Hcs.
      now apply andb_true_iff in Hcs as [_ Hcs].
    + destruct (legacy_session_calls _ _ _ _ Hcs Hu H2) as [Hi _].
      fold (legacy_attempts t2). rewrite (no_init_no_legacy _ Hi). lia.
    + rewrite Hdead in Hadm.
      pose proof (dead_client_calls _ _ _ _ Hcs Hadm H2) as Hi.
      fold (legacy_attempts t2). rewrite (no_init_no_legacy _ Hi). lia.
Qed.

(** C2.  A disconnect event that arrives while the legacy protocol is in
    use is only reported: no engine call is made and the legacy protocol
    stays in use.  This persists over any further calls and events short of
    a new [connect].  A connect cycle ([connect] followed by calls and
    events other than [connect]) contains at most one fallback hop; and
    when its events arrive only while a started engine client exists, it
    contains at most one legacy-protocol attempt. *)
Theorem C2_single_fallback_hop :
  (forall s event,
      _usingFallback (obj s) = true ->
      mqtt_event_handler MQTT_EVENT_DISCONNECTED event s
      = Done tt (mkSys (set_connected false (obj s)) (world s)) (report (obj s)))
  /\ (forall cs s s' t,
         none_of is_connect cs = true -> _usingFallback (obj s) = true ->
         calls cs s = Done tt s' t ->
         legacy_attempts t = 0%nat /\ count is_init t = 0%nat
         /\ _usingFallback (obj s') = true)
  /\ (forall id cs s s' t,
         none_of is_connect cs = true ->
         calls (Connect id :: cs) s = Done tt s' t ->
         (fallback_hops t <= 1)%nat)
  /\ (forall id cs s s' t alive,
         none_of is_connect cs = true ->
         admissible alive (Connect id :: cs) s ->
         calls (Connect id :: cs) s = Done tt s' t ->
         (legacy_attempts t <= 1)%nat).
Proof.
  split; [|split; [|split]].
  - intros s event Hu. apply disconnect_without_fallback.
    unfold fallback_due. rewrite Hu. apply andb_false_r.
  - intros cs s s' t Hcs Hu H.
    destruct (legacy_session_calls _ _ _ _ Hcs Hu H) as [Hi Hu'].
    auto using no_init_no_legacy.
  - intros id cs s s' t Hcs H.
    apply calls_cons in H as (s1 & t1 & t2 & H1 & H2 & ->).
    rewrite fallback_hops_app by eauto using calls_self_contained.
    destruct (call_step _ _ _ _ H1) as (_ & [Hh | [Hh Hu]] & _); rewrite Hh.
    + apply (calls_hops_bound _ _ _ _ Hcs H2).
    + destruct (legacy_session_calls _ _ _ _ Hcs Hu H2) as [Hi _].
      rewrite (no_init_no_hops _ Hi). lia.
  - intros id cs s s' t alive Hcs Hadm H.
    now apply (admissible_attempts (Connect id :: cs) s s' t alive).
Qed.

(** C3.  With protocol fallback disabled: [connect] is refused without
    any engine call or makes exactly one attempt, with the preferred
    protocol, and returns the outcome of that attempt ([false] at once
    when init or start fails); a disconnect event is only reported; and no
    sequence of calls and events that leaves fallback disabled contains a
    legacy-protocol attempt. *)
Theorem C3_no_legacy_attempt_when_disabled :
  (forall s id,
      _enableFallback (obj s) = false ->
      exists ok s' t,
        connect (Some id) s = Done ok s' t
        /\ legacy_attempts t = 0%nat
        /\ (t = [] /\ ok = false
            \/ exists old cfg created result,
                 t = attempt_obs old cfg created result
                 /\ session_protocol_ver cfg = MQTT_PROTOCOL_V_5
                 /\ ok = attempt_ok created result))
  /\ (forall s event,
         _enableFallback (obj s) = false ->
         mqtt_event_handler MQTT_EVENT_DISCONNECTED event s
         = Done tt (mkSys (set_connected false (obj s)) (world s))
             (report (obj s)))
  /\ (forall cs s s' t,
         none_of enables_fallback cs = true ->
         _enableFallback (obj s) = false ->
         calls cs s = Done tt s' t ->
         legacy_attempts t = 0%nat /\ _enableFallback (obj s') = false).
Proof.
  split; [|split].
  - intros s id Hen.
    destruct (connect_run id s) as (ok & s' & t & Hrun & Hshape & _).
    exists ok, s', t. split; [exact Hrun|].
    destruct (connect_run_measures _ _ _ _ _ Hshape) as (_ & _ & Hoff & _).
    destruct (Hoff Hen) as [Hl Hi]. split; [exact Hl|].
    destruct Hshape as [Hid | old cfg created result s1 _ Hv Hok Hu
                        | old cfg created result s1 _ Hv Hok Hen' Hu
                        | old cfg created result old' cfg' created' result' s1
                            _ Hv Hok Hen' Hv' Hu]; try congruence; auto;
      right; exists old, cfg, created, result; auto.
  - intros s event Hen. apply disconnect_without_fallback.
    unfold fallback_due. rewrite Hen. now rewrite andb_false_r.
  - intros cs s s' t. apply fallback_off_calls.
Qed.

(** *** Errors before a session is established *)

Lemma set_connected_same (c : MqttClient) :
  _connected c = false -> set_connected false c = c.
Proof. destruct c; cbn; now intros ->. Qed.

(** C4, amended.  While no session is established, an error event changes
    nothing and triggers nothing, and the disconnect event that follows a
    transport error is only reported to the application, whatever the
    fallback setting: the asynchronous error does not lead to a
    legacy-protocol attempt.  A failure of init or start inside [connect]
    is different: with fallback enabled, [connect] either starts the
    preferred protocol or makes exactly one legacy-protocol attempt. *)
Theorem C4_error_before_session_only_reported s event :
  _connected (obj s) = false ->
  (forall codes,
      error_handle event = Some codes ->
      mqtt_event_handler MQTT_EVENT_ERROR event s = Done tt s [])
  /\ mqtt_event_handler MQTT_EVENT_DISCONNECTED event s
     = Done tt s (report (obj s))
  /\ (forall id,
         Text.is_empty id = false -> _enableFallback (obj s) = true ->
         exists ok s' t,
           connect (Some id) s = Done ok s' t
           /\ (ok = true /\ legacy_attempts t = 0%nat
               /\ _usingFallback (obj s') = false
               \/ legacy_attempts t = 1%nat)).
Proof.
  intros Hc. split; [|split].
  - intros codes Herr. cbn. now rewrite Herr.
  - change (onDisconnectedInternal s = Done tt s (report (obj s))).
    rewrite disconnect_without_fallback
      by (unfold fallback_due; now rewrite Hc).
    rewrite (set_connected_same _ Hc). now destruct s.
  - intros id Hid Hen.
    destruct (connect_run id s) as (ok & s' & t & Hrun & Hshape & _).
    exists ok, s', t. split; [exact Hrun|].
    destruct Hshape as [Hid' | old cfg created result s1 _ Hv Hok Hu
                        | old cfg created result s1 _ Hv Hok Hen' Hu
                        | old cfg created result old' cfg' created' result' s1
                            _ Hv Hok _ Hv' Hu]; try congruence.
    + left. destruct (attempt_measures old cfg created result) as (_ & _ & Hl & _).
      rewrite Hv in Hl. auto.
    + right.
      destruct (attempt_measures old cfg created result) as (_ & _ & Hl & _).
      destruct (attempt_measures old' cfg' created' result') as (_ & _ & Hl' & _).
      rewrite Hv in Hl. rewrite Hv' in Hl'. unfold legacy_attempts in *.
      now rewrite count_app, Hl, Hl'.
Qed.

(** *** Received messages *)

Lemma to_size_t_small n : 0 <= n < 2 ^ 32 -> to_size_t n = n.
Proof. intros H. unfold to_size_t. now apply Z.mod_small. Qed.

Lemma skipn_zeroed n m : skipn n (zeroed m) = zeroed (m - n).
Proof.
  unfold zeroed. revert m. induction n as [|n IH]; intros m; cbn.
  - now rewrite Nat.sub_0_r.
  - destruct m; cbn; auto.
Qed.

Lemma memcpy_zeroed (bytes : list byte) size :
  memcpy (zeroed size) bytes (Z.of_nat (List.length bytes))
  = (bytes ++ zeroed (size - List.length bytes))%list.
Proof.
  unfold memcpy. rewrite Nat2Z.id, firstn_all, skipn_zeroed. reflexivity.
Qed.

(** C5, amended.  A data event whose topic is shorter than 256 bytes and
    whose payload is shorter than 512 bytes reaches the registered message
    callback with exactly the topic bytes (followed by zero bytes, so the
    topic is a terminated C string), exactly the payload bytes, and the
    reported payload length; nothing is parsed or filtered. *)
Theorem C5_message_forwarded_within_buffers s event cb :
  _messageCallback (obj s) = Some cb ->
  topic_len event = Z.of_nat (List.length (topic event)) ->
  topic_len event < 256 ->
  data_len event = Z.of_nat (List.length (data event)) ->
  data_len event < 512 ->
  mqtt_event_handler MQTT_EVENT_DATA event s
  = Done tt s
      [InvokeMessage cb
         (topic event ++ zeroed (256 - List.length (topic event)))
         (data event ++ zeroed (512 - List.length (data event)))
         (data_len event)].
Proof.
  intros Hcb Ht Htl Hd Hdl.
  unfold mqtt_event_handler, onDataInternal, invoke, emit, bind, this.
  rewrite Hcb.
  rewrite !to_size_t_small by lia.
  replace (topic_len event <? 256) with true by (symmetry; apply Z.ltb_lt; lia).
  replace (data_len event <? 512) with true by (symmetry; apply Z.ltb_lt; lia).
  rewrite Ht, Hd, !memcpy_zeroed. reflexivity.
Qed.

(** *** Configuration and sending *)

(** Whatever the parser rejects, [parseUriComponents] returns before its
    first assignment. *)
Lemma begin_rejected uri s :
  UriUtils.parseMqttUri uri = None -> begin (Some uri) s = Done tt s [].
Proof.
  intros H. unfold begin, parseUriComponents, deref, bind, ret. now rewrite H.
Qed.

(** C7.  [begin] with a malformed locator (no ["://"], unknown scheme,
    empty host or invalid port) stores nothing: host, port and every other
    member keep their values, and the engine is not touched. *)
Theorem C7_malformed_locator_changes_nothing uri s :
  Locator.Malformed uri -> begin (Some uri) s = Done tt s [].
Proof.
  intros H. apply begin_rejected, UriFacts.malformed_rejected, H.
Qed.

(** C8 at the failing input.  [connect(nullptr)] reads through the
    pointer ([strlen], [strcpy]) before the identifier is validated, so
    the call is undefined instead of returning [false]; the empty string
    is refused as claimed, after it has been stored. *)
Theorem C8_connect_null_identifier_undefined s :
  connect None s = Undefined
  /\ connect (Some "") s
     = Done false (mkSys (set_clientId (Some "") (obj s)) (world s)) [].
Proof. split; reflexivity. Qed.

(** C9.  [buildMqttUri] emits [scheme://host[:port]path] with the scheme
    text chosen by the two transport flags from mqtt, mqtts, ws, wss, and
    the path only for a WebSocket transport with a non-empty path.
    [buildUriIfNeeded] builds such a URI exactly when WebSocket is enabled
    or a non-empty path is set, from the scheme named by [_secure] and
    [_useWebSocket], the host, the port, and the path (["/"] when none is
    set) under WebSocket or no path otherwise; else it leaves no URI. *)
Theorem C9_uri_built_when_needed :
  (forall p,
      UriUtils.buildMqttUri p
      = UriUtils.scheme_text (UriUtils.isSecure p) (UriUtils.isWebSocket p)
        ++ "://" ++ UriUtils.host p
        ++ (if UriUtils.port p =? UriUtils.default_port (UriUtils.isSecure p)
            then "" else ":" ++ Text.decimal (UriUtils.port p))
        ++ (if UriUtils.isWebSocket p && negb (Text.is_empty (UriUtils.path p))
            then UriUtils.path p else ""))
  /\ (forall secure websocket,
         In (UriUtils.scheme_text secure websocket) ["mqtt"; "mqtts"; "ws"; "wss"])
  /\ (forall s,
         buildUriIfNeeded s
         = Done tt
             (mkSys
                (set_uri
                   (if _useWebSocket (obj s) || path_is_set (obj s)
                    then
                      Some
                        (UriUtils.scheme_text (_secure (obj s))
                                              (_useWebSocket (obj s))
                         ++ "://"
                         ++ (match _host (obj s) with Some h => h | None => "" end)
                         ++ (if _port (obj s)
                                =? UriUtils.default_port (_secure (obj s))
                             then "" else ":" ++ Text.decimal (_port (obj s)))
                         ++ (if _useWebSocket (obj s)
                             then (match _path (obj s) with
                                   | Some p => p
                                   | None => "/"
                                   end)
                             else ""))
                    else None)
                   (obj s))
                (world s))
             []).
Proof.
  split; [reflexivity | split].
  - intros [] []; cbn; auto.
  - intros s. apply buildUriIfNeeded_run.
Qed.

(** C10.  Without an engine client, [publish], [subscribe] and
    [unsubscribe] return -1, make no engine call and change nothing; and
    a client on which [connect] was never called (whatever else the
    application called) has no engine client. *)
Theorem C10_no_engine_client_no_communication :
  (forall s topic payload retain qos,
      _client (obj s) = None ->
      publish topic payload retain s = Done (-1) s []
      /\ subscribe topic qos s = Done (-1) s []
      /\ unsubscribe topic s = Done (-1) s [])
  /\ (forall cs w s' t,
         none_of is_connect cs = true -> none_of is_event cs = true ->
         calls cs (mkSys MqttClient_new w) = Done tt s' t ->
         _client (obj s') = None
         /\ count is_engine_call t = 0%nat).
Proof.
  split.
  - intros s topic payload retain qos Hc.
    unfold publish, subscribe, unsubscribe, bind, this, ret. cbn.
    rewrite Hc. auto.
  - intros cs w.
    assert (H : forall s s' t,
               none_of is_connect cs = true -> none_of is_event cs = true ->
               _client (obj s) = None ->
               calls cs s = Done tt s' t ->
               _client (obj s') = None /\ count is_engine_call t = 0%nat).
    { induction cs as [|c cs IH]; intros s s' t Hcon Hev Hc H.
      - apply calls_nil in H as [-> ->]. auto.
      - apply calls_cons in H as (s1 & t1 & t2 & H1 & H2 & ->).
        cbn in Hcon, Hev.
        apply andb_true_iff in Hcon as [Hcon1 Hcon], Hev as [Hev1 Hev].
        apply negb_true_iff in Hcon1, Hev1.
        assert (Hq : count is_engine_call t1 = 0%nat).
        { clear -H1 Hcon1 Hev1 Hc. destruct s as [c0 w0]. destruct c0.
          cbn in Hc. subst.
          destruct c; try discriminate;
            unfold call, discard, begin, parseUriComponents, setServer,
              setWebSocket, setPath, setCredentials, setKeepalive, setCACert,
              setClientCert, setClientKey, setInsecure, setProtocolFallback,
              onMessage, onConnect, onDisconnect, disconnect, isConnected,
              loop, publish, subscribe, unsubscribe, when, is_set, deref,
              engine, engine_, bind, ret, assign, this, undefined in H1;
            cbn in H1; crunch; reflexivity. }
        apply plain_call in H1 as (_ & _ & _ & Hc1 & _); auto.
        rewrite Hc in Hc1.
        destruct (IH _ _ _ Hcon Hev Hc1 H2) as [Hc2 Hq2].
        now rewrite count_app, Hq, Hq2. }
    intros s' t Hcon Hev. now apply H.
Qed.

End WithEngine.

(** *** The statements on concrete runs *)

Import Scripted.

(** The spec's scenario for WebSocket locators: the URI handed to the
    engine carries the path, and no longer does once WebSocket is
    disabled. *)
Example scenario_websocket_uri :
  _uri (obj (after [Begin (Some "ws://broker.example.com/mqtt");
                    Connect (Some "dev")] (fresh [] [])))
  = Some "ws://broker.example.com/mqtt"
  /\ _uri (obj (after [Begin (Some "ws://broker.example.com/mqtt");
                       SetWebSocket false;
                       Connect (Some "dev")] (fresh [] [])))
     = Some "mqtt://broker.example.com".
Proof. split; vm_compute; reflexivity. Qed.

(** The spec's scenario for a failing start: with fallback enabled exactly
    one legacy attempt follows; when it starts, [connect] returns [true],
    and the connected event invokes the connect callback once and makes
    [isConnected] true. *)
Example scenario_fallback_on_start_failure :
  exists s t,
    calls (Begin (Some "mqtts://broker.example.com:8883") :: setup
           ++ [Connect (Some "dev");
               EngineEvent MQTT_EVENT_CONNECTED plain_event])
          (fresh [] [1; ESP_OK])
    = Done tt s t
    /\ legacy_attempts t = 1%nat /\ fallback_hops t = 1%nat
    /\ count (fun o => match o with InvokeConnect _ => true | _ => false end) t
       = 1%nat
    /\ _usingFallback (obj s) = true
    /\ isConnected s = Done true s [].
Proof.
  do 2 eexists. split; [vm_compute; reflexivity|].
  repeat split; vm_compute; reflexivity.
Qed.

(** The bound on attempts rests on events coming from a started client
    only.  Were the engine to report a session on a client whose start
    failed, a later drop would lead to a further legacy attempt; the
    number of hops is not affected. *)
Example attempts_need_a_started_client :
  exists s t,
    calls (setup ++ [Connect (Some "dev");
                     EngineEvent MQTT_EVENT_CONNECTED plain_event;
                     EngineEvent MQTT_EVENT_DISCONNECTED plain_event;
                     EngineEvent MQTT_EVENT_CONNECTED plain_event;
                     EngineEvent MQTT_EVENT_DISCONNECTED plain_event])
          (fresh [] [ESP_OK; 1; 1])
    = Done tt s t
    /\ legacy_attempts t = 2%nat /\ fallback_hops t = 0%nat
    /\ disconnect_reports t = 2%nat.
Proof.
  do 2 eexists. split; [vm_compute; reflexivity|].
  repeat split; vm_compute; reflexivity.
Qed.

Lemma C1_disconnect_reported_once_witness :
  _disconnectCallback (obj established) = Some 7%nat
  /\ exists s' t,
       mqtt_event_handler MQTT_EVENT_DISCONNECTED transport_error established
       = Done tt s' t
       /\ (disconnect_reports t + fallback_hops t = 1)%nat
       /\ legacy_attempts t = 1%nat.
Proof.
  split; [reflexivity|].
  destruct (C1_disconnect_reported_once established transport_error 7%nat eq_refl)
    as (s' & t & Hrun & Hsum & Hl & _).
  exists s', t. repeat split; assumption.
Defined.

Lemma C2_single_fallback_hop_witness :
  _usingFallback (obj legacy_session) = true
  /\ (exists s' t,
         calls drops legacy_session = Done tt s' t
         /\ legacy_attempts t = 0%nat /\ count is_init t = 0%nat
         /\ _usingFallback (obj s') = true)
  /\ (exists s' t,
         calls (Connect (Some "dev") :: drops) established = Done tt s' t
         /\ (fallback_hops t <= 1)%nat /\ (legacy_attempts t <= 1)%nat).
Proof.
  split; [reflexivity|]. split.
  - do 2 eexists. split; [vm_compute; reflexivity|].
    eapply (proj1 (proj2 (@C2_single_fallback_hop scripted))
              drops legacy_session);
      [reflexivity | reflexivity | vm_compute; reflexivity].
  - do 2 eexists. split; [vm_compute; reflexivity|]. split.
    + eapply (proj1 (proj2 (proj2 (@C2_single_fallback_hop scripted)))
                (Some "dev") drops established);
        [reflexivity | vm_compute; reflexivity].
    + eapply (proj2 (proj2 (proj2 (@C2_single_fallback_hop scripted)))
                (Some "dev") drops established _ _ true);
        [reflexivity | vm_compute; repeat split; auto
         | vm_compute; reflexivity].
Defined.

Lemma C3_no_legacy_attempt_when_disabled_witness :
  _enableFallback (obj (fresh [] [1])) = false
  /\ (exists ok s' t,
         connect (Some "dev") (fresh [] [1]) = Done ok s' t
         /\ legacy_attempts t = 0%nat)
  /\ (exists s' t,
         calls (Connect (Some "dev") :: drops) (fresh [] [1]) = Done tt s' t
         /\ legacy_attempts t = 0%nat /\ _enableFallback (obj s') = false).
Proof.
  split; [reflexivity|]. split.
  - destruct (proj1 (@C3_no_legacy_attempt_when_disabled scripted)
                (fresh [] [1]) "dev" eq_refl)
      as (ok & s' & t & Hrun & Hl & _).
    exists ok, s', t. auto.
  - do 2 eexists. split; [vm_compute; reflexivity|].
    eapply (proj2 (proj2 (@C3_no_legacy_attempt_when_disabled scripted))
              (Connect (Some "dev") :: drops) (fresh [] [1]));
      [reflexivity | reflexivity | vm_compute; reflexivity].
Defined.

Lemma C4_error_before_session_only_reported_witness :
  _connected (obj pending) = false
  /\ mqtt_event_handler MQTT_EVENT_DISCONNECTED transport_error pending
     = Done tt pending (report (obj pending)).
Proof.
  split; [reflexivity|].
  exact (proj1 (proj2 (C4_error_before_session_only_reported
                         pending transport_error eq_refl))).
Defined.

(** C4 as stated fails: fallback is enabled and the preferred protocol has
    been started; a transport error arrives before any session is
    established.  The error event does nothing and the disconnect event is
    only reported: no legacy-protocol attempt is made.  When instead the
    start itself fails, [connect] does make the legacy-protocol attempt. *)
Lemma C4_async_error_counterexample :
  _enableFallback (obj pending) = true
  /\ _connected (obj pending) = false
  /\ calls [EngineEvent MQTT_EVENT_ERROR transport_error;
            EngineEvent MQTT_EVENT_DISCONNECTED transport_error] pending
     = Done tt pending [InvokeDisconnect 7%nat]
  /\ legacy_attempts [InvokeDisconnect 7%nat] = 0%nat
  /\ exists s' t,
       calls (setup ++ [Connect (Some "dev")]) (fresh [] [1]) = Done tt s' t
       /\ legacy_attempts t = 1%nat.
Proof.
  repeat split; try (vm_compute; reflexivity).
  do 2 eexists. split; vm_compute; reflexivity.
Qed.

Lemma C5_message_forwarded_within_buffers_witness :
  mqtt_event_handler MQTT_EVENT_DATA (message 2) pending
  = Done tt pending
      [InvokeMessage 9%nat ([x74] ++ zeroed 255) ([x61; x61] ++ zeroed 510) 2].
Proof.
  apply (C5_message_forwarded_within_buffers pending (message 2) 9%nat);
    reflexivity.
Defined.

(** C5 as stated fails: a payload of 512 bytes is not forwarded; the
    callback is handed a zeroed buffer together with the length 512. *)
Lemma C5_oversized_payload_counterexample :
  data_len (message 512) = Z.of_nat (List.length (data (message 512)))
  /\ mqtt_event_handler MQTT_EVENT_DATA (message 512) pending
     = Done tt pending
         [InvokeMessage 9%nat ([x74] ++ zeroed 255) (zeroed 512) 512]
  /\ firstn 512 (zeroed 512) <> data (message 512).
Proof.
  split; [reflexivity|]. split; [vm_compute; reflexivity|].
  vm_compute. discriminate.
Qed.

Lemma C7_malformed_locator_changes_nothing_witness :
  Locator.Malformed ("http" ++ "://" ++ "broker.example.com:80")
  /\ begin (Some "http://broker.example.com:80") pending = Done tt pending [].
Proof.
  split.
  - now apply Locator.UnknownScheme.
  - apply (C7_malformed_locator_changes_nothing
             "http://broker.example.com:80" pending).
    now apply (Locator.UnknownScheme "http" "broker.example.com:80").
Defined.

Lemma C10_no_engine_client_no_communication_witness :
  _client (obj (fresh [] [])) = None
  /\ publish (Some "sensors/t") (Some "21.5") false (fresh [] [])
     = Done (-1) (fresh [] []) []
  /\ (exists s' t,
         calls setup (fresh [] []) = Done tt s' t
         /\ _client (obj s') = None /\ count is_engine_call t = 0%nat).
Proof.
  split; [reflexivity|]. split.
  - exact (proj1 (proj1 (@C10_no_engine_client_no_communication scripted)
                    (fresh [] []) (Some "sensors/t") (Some "21.5") false 0
                    eq_refl)).
  - do 2 eexists. split; [vm_compute; reflexivity|].
    eapply (proj2 (@C10_no_engine_client_no_communication scripted)
              setup (mkScript 0 [] []));
      [reflexivity | reflexivity | vm_compute; reflexivity].
Defined.

End ClientFacts.

(* ================================================================== *)
(** ** The client: engine usage, configuration and callbacks *)

Module UsageFacts.
Import Esp Run Client Measure Negotiation Usage ClientFacts.
Local Open Scope run_scope.

Local Arguments connectWithProtocol : simpl never.
Local Arguments attempt_obs : simpl never.
Local Arguments attempt_ok : simpl never.
Local Arguments UriUtils.parseMqttUri : simpl never.

Ltac attempt H :=
  match goal with
  | |- context [connectWithProtocol ?p ?st] =>
      let created := fresh "created" in
      let result := fresh "result" in
      let w := fresh "w" in
      destruct (connectWithProtocol_run p st) as (created & result & w & H);
      rewrite H
  end.

Ltac settle :=
  repeat match goal with
         | H : Done _ _ _ = Done _ _ _ |- _ => inversion H; subst; clear H
         | H : Undefined = Done _ _ _ |- _ => discriminate H
         | H : context [match ?x with _ => _ end] |- _ =>
             destruct x eqn:?; cbn in H
         | H : context [if ?x then _ else _] |- _ =>
             destruct x eqn:?; cbn in H
         end.

Ltac open_call H :=
  unfold call, discard, begin, parseUriComponents, setServer,
    setWebSocket, setPath, setCredentials, setKeepalive, setCACert,
    setClientCert, setClientKey, setInsecure, setProtocolFallback,
    onMessage, onConnect, onDisconnect, disconnect, isConnected, loop,
    publish, subscribe, unsubscribe, when, is_set, deref, engine, engine_,
    bind, ret, assign, this, undefined in H;
  cbn in H.

Section WithEngine.
Context {E : Engine}.
Implicit Types s : Sys E.

(** *** The exact runs of [connect] and of a disconnect event *)

Lemma connect_detail id s :
  Text.is_empty id = false ->
  exists created result w,
    let c := set_clientId (Some id) (obj s) in
    let first := attempt_obs (_client (obj s))
                   (attempt_cfg c MQTT_PROTOCOL_V_5) created result in
    (attempt_ok created result = true
     /\ connect (Some id) s
        = Done true
            (mkSys (set_usingFallback false (attempt_state c created)) w)
            first)
    \/ (attempt_ok created result = false
        /\ _enableFallback (obj s) = false
        /\ connect (Some id) s
           = Done false (mkSys (attempt_state c created) w) first)
    \/ (attempt_ok created result = false
        /\ _enableFallback (obj s) = true
        /\ exists created' result' w',
             let second := attempt_obs created
                             (attempt_cfg c MQTT_PROTOCOL_V_3_1_1)
                             created' result' in
             connect (Some id) s
             = Done (attempt_ok created' result')
                 (mkSys (if attempt_ok created' result'
                         then set_usingFallback true (attempt_state c created')
                         else attempt_state c created') w')
                 (first ++ second)).
Proof.
  intros Hid. unfold connect, deref, bind, ret, assign, this. cbn.
  rewrite Hid. attempt H5. cbn. exists created, result, w. cbn.
  destruct (attempt_ok created result) eqn:Hok5; cbn.
  - left. split; [reflexivity|]. now rewrite app_nil_r.
  - right. destruct (_enableFallback (obj s)) eqn:Hen.
    + right. repeat split. attempt H4. cbn.
      exists created0, result0, w0.
      destruct (attempt_ok created0 result0); cbn; rewrite app_nil_r;
        destruct s as [[]]; reflexivity.
    + left. repeat split. now rewrite app_nil_r.
Qed.

Lemma disconnect_detail s :
  let c := set_connected false (obj s) in
  (fallback_due (obj s) = false
   /\ onDisconnectedInternal s = Done tt (mkSys c (world s)) (report (obj s)))
  \/ (fallback_due (obj s) = true
      /\ exists created result w,
           onDisconnectedInternal s
           = Done tt
               (mkSys (if attempt_ok created result
                       then set_usingFallback true (attempt_state c created)
                       else attempt_state c created) w)
               (Delay 1000
                :: attempt_obs (_client (obj s))
                     (attempt_cfg c MQTT_PROTOCOL_V_3_1_1) created result
                ++ (if attempt_ok created result then [] else report (obj s)))).
Proof.
  intros c. subst c. destruct (fallback_due (obj s)) eqn:Hdue.
  - right. split; [reflexivity|].
    unfold onDisconnectedInternal, reconnectWithFallback, emit,
      bind, ret, assign, this. cbn.
    fold (fallback_due (obj s)). rewrite Hdue.
    attempt H4. cbn. exists created, result, w.
    destruct (attempt_ok created result); cbn.
    + rewrite !app_nil_r. destruct s as [[]]; reflexivity.
    + rewrite invoke_report. destruct s as [[]]; reflexivity.
  - left. split; [reflexivity|]. now apply disconnect_without_fallback.
Qed.

Lemma connect_refused id s :
  Text.is_empty id = true ->
  connect (Some id) s
  = Done false (mkSys (set_clientId (Some id) (obj s)) (world s)) [].
Proof.
  intros Hid. unfold connect, deref, bind, ret, assign, this. cbn.
  now rewrite Hid.
Qed.

(** Properties of runs that hold for the empty run, compose, and hold for
    every single call, hold for every sequence of calls. *)
Lemma calls_induction (allowed : Call -> bool)
    (P : Sys E -> list Obs -> Sys E -> Prop) :
  (forall s, P s [] s) ->
  (forall s t1 s1 t2 s2, P s t1 s1 -> P s1 t2 s2 -> P s (t1 ++ t2)%list s2) ->
  (forall c s s' t, allowed c = true -> call c s = Done tt s' t -> P s t s') ->
  forall cs s s' t,
    forallb allowed cs = true -> calls cs s = Done tt s' t -> P s t s'.
Proof.
  intros Hnil Happ Hstep. induction cs as [|c cs IH]; intros s s' t Hcs H.
  - apply calls_nil in H as [-> ->]. apply Hnil.
  - apply calls_cons in H as (s1 & t1 & t2 & H1 & H2 & ->).
    cbn in Hcs. apply andb_true_iff in Hcs as [Hc Hcs]. eauto.
Qed.

Lemma any_call cs : forallb (fun _ : Call => true) cs = true.
Proof. induction cs; auto. Qed.

(** *** The engine is used on the client that exists *)

Lemma disciplined_app cur t1 t2 :
  disciplined cur (t1 ++ t2)
  = disciplined cur t1 && disciplined (current_after cur t1) t2.
Proof.
  revert cur. induction t1 as [|o t1 IH]; intros cur; [reflexivity|].
  destruct o; cbn; rewrite ?IH, ?andb_assoc; reflexivity.
Qed.

Lemma current_after_app cur t1 t2 :
  current_after cur (t1 ++ t2) = current_after (current_after cur t1) t2.
Proof.
  revert cur. induction t1 as [|o t1 IH]; intros cur; [reflexivity|].
  destruct o; cbn; auto.
Qed.

Lemma attempt_disciplined old cfg created result :
  disciplined old (attempt_obs old cfg created result) = true
  /\ current_after old (attempt_obs old cfg created result) = created.
Proof.
  unfold attempt_obs. destruct old, created; cbn;
    rewrite ?Nat.eqb_refl; auto.
Qed.

Lemma quiet_disciplined cur t :
  count is_engine_call t = 0%nat ->
  disciplined cur t = true /\ current_after cur t = cur.
Proof.
  unfold count. induction t as [|o t IH]; [auto|].
  destruct o; cbn; try discriminate; auto.
Qed.

Lemma report_silent (c : MqttClient) : count is_engine_call (report c) = 0%nat.
Proof. unfold report. now destruct (_disconnectCallback c). Qed.

Lemma call_disciplined c s s' t :
  call c s = Done tt s' t ->
  disciplined (_client (obj s)) t = true
  /\ current_after (_client (obj s)) t = _client (obj s').
Proof.
  intros H.
  destruct c;
    try (destruct s as [c0 w0]; destruct c0; open_call H; settle; cbn;
         rewrite ?Nat.eqb_refl; auto; fail).
  - (* connect *)
    destruct clientId as [id|]; [|discriminate].
    change (discard (connect (Some id)) s = Done tt s' t) in H.
    unfold discard, bind in H.
    destruct (Text.is_empty id) eqn:Hid.
    + rewrite (connect_refused id s Hid) in H. cbn in H. inversion H; subst.
      cbn. destruct s as [[]]. auto.
    + destruct (connect_detail id s Hid) as (created & result & w & Hrun).
      cbv zeta in Hrun.
      destruct Hrun as [[_ Hrun] | [(_ & _ & Hrun) | (_ & _ & created' & result' & w' & Hrun)]];
        rewrite Hrun in H; cbn in H; inversion H; subst; clear H;
        rewrite app_nil_r, ?disciplined_app, ?current_after_app;
        repeat match goal with
               | |- context [attempt_obs ?o ?c ?r ?x] =>
                   let Hd := fresh in
                   let Hc := fresh in
                   destruct (attempt_disciplined o c r x) as [Hd Hc];
                   rewrite ?Hd, ?Hc; clear Hd Hc
               end;
        try destruct (attempt_ok created' result');
        destruct s as [[]]; auto.
  - (* engine event *)
    unfold call in H. destruct event_id;
      try (destruct s as [c0 w0]; destruct c0;
           unfold mqtt_event_handler, onConnectedInternal, onDataInternal,
             invoke, emit, bind, ret, assign, this, undefined in H;
           cbn in H; settle; cbn; auto; fail).
    change (onDisconnectedInternal s = Done tt s' t) in H.
    destruct (disconnect_detail s) as [[_ Hrun] | (_ & created & result & w & Hrun)];
      cbv zeta in Hrun; rewrite Hrun in H; inversion H; subst; clear H.
    + destruct (quiet_disciplined (_client (obj s)) _ (report_silent (obj s)))
        as [-> ->]. destruct s as [[]]; auto.
    + cbn [disciplined current_after].
      rewrite disciplined_app, current_after_app.
      destruct (attempt_disciplined (_client (obj s))
                  (attempt_cfg (set_connected false (obj s))
                     MQTT_PROTOCOL_V_3_1_1) created result) as [-> ->].
      destruct (attempt_ok created result); cbn.
      * destruct s as [[]]; auto.
      * destruct (quiet_disciplined created _ (report_silent (obj s)))
          as [-> ->]. destruct s as [[]]; auto.
Qed.

Lemma calls_disciplined cs s s' t :
  calls cs s = Done tt s' t ->
  disciplined (_client (obj s)) t = true
  /\ current_after (_client (obj s)) t = _client (obj s').
Proof.
  apply (calls_induction (fun _ => true)
           (fun s t s' =>
              disciplined (_client (obj s)) t = true
              /\ current_after (_client (obj s)) t = _client (obj s'))).
  - auto.
  - intros s0 t1 s1 t2 s2 [Hd1 Hc1] [Hd2 Hc2].
    now rewrite disciplined_app, current_after_app, Hd1, Hc1, Hd2, Hc2.
  - intros c s0 s1 t0 _. apply call_disciplined.
  - apply any_call.
Qed.

(** X1.  In every run of calls and events the engine is used on the
    client that exists: a client is initialised only when the previous one
    has been destroyed, and start, stop, destroy, disconnect, publish,
    subscribe and unsubscribe are called only on the client created last
    and not yet destroyed, which is the one [_client] names at the end. *)
Theorem engine_used_on_current_client cs s s' t :
  calls cs s = Done tt s' t ->
  disciplined (_client (obj s)) t = true
  /\ current_after (_client (obj s)) t = _client (obj s').
Proof. intros H. exact (calls_disciplined cs s s' t H). Qed.

(** X2.  From creation to destruction no engine client is left behind:
    whatever the application called on a client obtained from
    [getInstance], and whatever events arrived, the destructor leaves the
    engine without a client, and over the whole life of the object every
    engine call was made on the client existing at that moment. *)
Theorem destructor_releases_engine_client c cs w s' t :
  getInstance None = Some c ->
  calls cs (mkSys c w) = Done tt s' t ->
  exists w' t',
    MqttClient_delete s' = Done tt (mkSys (obj s') w') t'
    /\ disciplined None (t ++ t') = true
    /\ current_after None (t ++ t') = None.
Proof.
  intros [= <-] H.
  destruct (calls_disciplined _ _ _ _ H) as [Hd Hc].
  cbn in Hd, Hc.
  unfold MqttClient_delete, engine_, bind, ret, this. cbn.
  destruct (_client (obj s')) as [h|]; cbn.
  - do 2 eexists. split; [reflexivity|].
    rewrite disciplined_app, current_after_app, Hd, Hc. cbn.
    now rewrite Nat.eqb_refl.
  - exists (world s'), []. split; [destruct s'; reflexivity|].
    now rewrite disciplined_app, current_after_app, Hd, Hc.
Qed.

(** *** The configurations handed to the engine *)

Lemma inits_app t1 t2 : inits (t1 ++ t2) = (inits t1 ++ inits t2)%list.
Proof.
  induction t1 as [|o t1 IH]; [reflexivity|].
  destruct o; cbn; rewrite ?IH; reflexivity.
Qed.

Lemma inits_attempt old cfg created result :
  inits (attempt_obs old cfg created result) = [cfg].
Proof. unfold attempt_obs. now destruct old, created. Qed.

Lemma inits_quiet t : count is_init t = 0%nat -> inits t = [].
Proof.
  unfold count. induction t as [|o t IH]; [reflexivity|].
  destruct o; cbn; auto; discriminate.
Qed.

Lemma mqtt_cfg_exclusive (c : MqttClient) protocol :
  address_exclusive (mqtt_cfg c protocol) = true.
Proof. unfold address_exclusive, mqtt_cfg. cbn. now destruct (_uri c). Qed.

Lemma call_inits c s s' t :
  call c s = Done tt s' t ->
  forallb address_exclusive (inits t) = true.
Proof.
  intros H.
  destruct (is_connect c) eqn:Hc; [|destruct (is_event c) eqn:He].
  - destruct c; try discriminate. destruct clientId as [id|]; [|discriminate].
    change (discard (connect (Some id)) s = Done tt s' t) in H.
    unfold discard, bind in H.
    destruct (connect_run id s) as (ok & s1 & t1 & Hrun & Hshape & _).
    rewrite Hrun in H. cbn in H. inversion H; subst. rewrite app_nil_r.
    destruct (Text.is_empty id) eqn:Hid.
    + rewrite (connect_refused id s Hid) in Hrun. now inversion Hrun.
    + clear Hshape.
      destruct (connect_detail id s Hid) as (created & result & w & Hd).
      cbv zeta in Hd.
      destruct Hd as [[_ Hd] | [(_ & _ & Hd) | (_ & _ & created' & result' & w' & Hd)]];
        rewrite Hd in Hrun; inversion Hrun; subst;
        rewrite ?inits_app, !inits_attempt; cbn;
        unfold attempt_cfg; now rewrite !mqtt_cfg_exclusive.
  - destruct c; try discriminate. unfold call in H.
    destruct event_id;
      try (apply quiet_event in H as (Hi & _); [|discriminate];
           now rewrite (inits_quiet _ Hi)).
    change (onDisconnectedInternal s = Done tt s' t) in H.
    destruct (disconnect_detail s) as [[_ Hrun] | (_ & created & result & w & Hrun)];
      cbv zeta in Hrun; rewrite Hrun in H; inversion H; subst; clear H.
    + now rewrite (inits_quiet _ (proj1 (report_quiet (obj s)))).
    + cbn [inits]. rewrite inits_app, inits_attempt.
      assert (Hq : inits (if attempt_ok created result then [] else report (obj s))
                   = []).
      { destruct (attempt_ok created result); [reflexivity|].
        apply inits_quiet, report_quiet. }
      rewrite Hq. cbn. unfold attempt_cfg. now rewrite mqtt_cfg_exclusive.
  - apply plain_call in H as (Hi & _); auto. now rewrite (inits_quiet _ Hi).
Qed.

(** X3.  No configuration handed to the engine names the broker twice: in
    every run, each initialisation carries either a URI, with no host name
    and port 0, or no URI. *)
Theorem engine_address_is_uri_or_host cs s s' t :
  calls cs s = Done tt s' t ->
  forallb address_exclusive (inits t) = true.
Proof.
  apply (calls_induction (fun _ => true)
           (fun _ t _ => forallb address_exclusive (inits t) = true)).
  - reflexivity.
  - intros _ t1 _ t2 _ H1 H2. now rewrite inits_app, forallb_app, H1, H2.
  - intros c s0 s1 t0 _. apply call_inits.
  - apply any_call.
Qed.

(** X4.  [connect] with a non-empty identifier tries the preferred
    protocol first, with the identifier it was given, and never waits;
    when it goes on to the legacy protocol, the second configuration
    differs from the first in the protocol version only. *)
Theorem connect_attempts_differ_in_protocol_only id s ok s' t :
  Text.is_empty id = false ->
  connect (Some id) s = Done ok s' t ->
  exists cfg,
    session_protocol_ver cfg = MQTT_PROTOCOL_V_5
    /\ credentials_client_id cfg = Some id
    /\ (inits t = [cfg]
        \/ _enableFallback (obj s) = true
           /\ inits t = [cfg; with_protocol MQTT_PROTOCOL_V_3_1_1 cfg])
    /\ count is_delay t = 0%nat.
Proof.
  intros Hid H.
  exists (attempt_cfg (set_clientId (Some id) (obj s)) MQTT_PROTOCOL_V_5).
  split; [reflexivity|]. split; [reflexivity|].
  destruct (connect_detail id s Hid) as (created & result & w & Hd).
  cbv zeta in Hd.
  destruct Hd as [[_ Hd] | [(_ & _ & Hd) | (_ & Hen & created' & result' & w' & Hd)]];
    rewrite Hd in H; inversion H; subst; clear H;
    unfold count; rewrite ?filter_app, ?length_app, ?inits_app, !inits_attempt.
  - split; [now left|]. unfold attempt_obs. now destruct (_client (obj s)), created.
  - split; [now left|]. unfold attempt_obs. now destruct (_client (obj s)), created.
  - split; [right; split; [exact Hen | reflexivity]|].
    unfold attempt_obs.
    now destruct (_client (obj s)), created, created'.
Qed.

(** *** What the result of [connect] tells *)

Lemma attempt_started old cfg created result :
  attempt_ok created result = true ->
  exists h before,
    created = Some h
    /\ attempt_obs old cfg created result
       = (before ++ [CallInit cfg (Some h); CallRegisterEvent h;
                     CallStart h ESP_OK])%list.
Proof.
  unfold attempt_ok, attempt_obs. destruct created as [h|]; [|discriminate].
  intros Hr. apply Z.eqb_eq in Hr. subst result.
  exists h. eexists. split; reflexivity.
Qed.

Lemma attempt_not_started old cfg created result :
  attempt_ok created result = false ->
  count is_good_start (attempt_obs old cfg created result) = 0%nat.
Proof.
  unfold attempt_ok, attempt_obs, count.
  destruct old, created; cbn; try reflexivity; now intros ->.
Qed.

(** X5.  [connect] returns [true] exactly when its last engine call is a
    start that returned [ESP_OK]; [_client] is then the started client and
    [_usingFallback] tells whether that client was initialised with the
    legacy protocol.  When [connect] returns [false] no start succeeded and
    [_usingFallback] keeps its value.  Either way the session flag
    [_connected] is not touched: a session is reported by the engine
    later. *)
Theorem connect_result_reflects_last_start id s ok s' t :
  connect (Some id) s = Done ok s' t ->
  (ok = true ->
   exists before cfg h,
     t = (before ++ [CallInit cfg (Some h); CallRegisterEvent h;
                     CallStart h ESP_OK])%list
     /\ _client (obj s') = Some h
     /\ _usingFallback (obj s')
        = (session_protocol_ver cfg =? MQTT_PROTOCOL_V_3_1_1))
  /\ (ok = false ->
      count is_good_start t = 0%nat
      /\ _usingFallback (obj s') = _usingFallback (obj s))
  /\ _connected (obj s') = _connected (obj s).
Proof.
  intros H. destruct (Text.is_empty id) eqn:Hid.
  - rewrite (connect_refused id s Hid) in H. inversion H; subst.
    split; [discriminate|]. split; [|destruct s as [[]]; reflexivity].
    intros _. split; [reflexivity | destruct s as [[]]; reflexivity].
  - destruct (connect_detail id s Hid) as (created & result & w & Hd).
    cbv zeta in Hd.
    destruct Hd as [[Hok Hd] | [(Hok & _ & Hd) | (Hok & _ & created' & result' & w' & Hd)]];
      rewrite Hd in H; inversion H; subst; clear H.
    + split; [|split; [discriminate | destruct s as [[]]; reflexivity]].
      intros _.
      destruct (attempt_started (_client (obj s))
                  (attempt_cfg (set_clientId (Some id) (obj s)) MQTT_PROTOCOL_V_5)
                  _ _ Hok) as (h & before & -> & ->).
      exists before. do 2 eexists. repeat split.
    + split; [discriminate|]. split; [|destruct s as [[]]; reflexivity].
      intros _. split; [now apply attempt_not_started|].
      destruct s as [[]]; reflexivity.
    + split; [|split; [split|]].
      * intros Hok'.
        destruct (attempt_started created
                    (attempt_cfg (set_clientId (Some id) (obj s))
                       MQTT_PROTOCOL_V_3_1_1) _ _ Hok')
          as (h & before & -> & ->).
        rewrite app_assoc. do 3 eexists. split; [reflexivity|].
        rewrite Hok'. split; reflexivity.
      * unfold count.
        rewrite filter_app, length_app.
        fold (count is_good_start
                (attempt_obs (_client (obj s))
                   (attempt_cfg (set_clientId (Some id) (obj s))
                      MQTT_PROTOCOL_V_5) created result)).
        fold (count is_good_start
                (attempt_obs created
                   (attempt_cfg (set_clientId (Some id) (obj s))
                      MQTT_PROTOCOL_V_3_1_1) created' result')).
        now rewrite !attempt_not_started.
      * rewrite H. destruct s as [[]]; reflexivity.
      * destruct (attempt_ok created' result'); destruct s as [[]]; reflexivity.
Qed.

(** *** The session flag *)

Lemma stays_disconnected c s s' t :
  is_connected_event c = false ->
  call c s = Done tt s' t ->
  _connected (obj s) = false -> _connected (obj s') = false.
Proof.
  intros Hc H Hs.
  destruct (is_connect c) eqn:Hcon; [|destruct (is_event c) eqn:He].
  - destruct c; try discriminate. destruct clientId as [id|]; [|discriminate].
    change (discard (connect (Some id)) s = Done tt s' t) in H.
    unfold discard, bind in H.
    destruct (connect_run id s) as (ok & s1 & t1 & Hrun & _ & _ & Hsame & _).
    rewrite Hrun in H. cbn in H. inversion H; subst. congruence.
  - destruct c; try discriminate. unfold call in H.
    destruct event_id; try discriminate;
      try (destruct s as [c0 w0]; destruct c0;
           unfold mqtt_event_handler, onConnectedInternal, onDataInternal,
             invoke, emit, bind, ret, assign, this, undefined in H;
           cbn in H; settle; cbn in *; assumption).
    change (onDisconnectedInternal s = Done tt s' t) in H.
    destruct (onDisconnectedInternal_run s) as (s1 & t1 & Hrun & _ & Hoff & _).
    rewrite Hrun in H. now inversion H; subst.
  - apply plain_call in H as (_ & _ & _ & _ & _ & Hsame & _); auto. congruence.
Qed.

(** X6.  After a disconnect event [isConnected] is [false], and it stays
    [false] over every call and event until the engine reports a session
    again, also when the fallback attempt started or [connect] returned
    [true] in between. *)
Theorem disconnected_until_next_connected_event event s s1 t1 cs s' t :
  mqtt_event_handler MQTT_EVENT_DISCONNECTED event s = Done tt s1 t1 ->
  none_of is_connected_event cs = true ->
  calls cs s1 = Done tt s' t ->
  isConnected s' = Done false s' [].
Proof.
  intros H1 Hcs H.
  assert (Hoff : _connected (obj s1) = false).
  { change (onDisconnectedInternal s = Done tt s1 t1) in H1.
    destruct (onDisconnectedInternal_run s) as (s2 & t2 & Hrun & _ & Hoff & _).
    rewrite Hrun in H1. now inversion H1; subst. }
  assert (Hend : _connected (obj s') = false).
  { revert Hoff.
    apply (calls_induction (fun c => negb (is_connected_event c))
             (fun s _ s' => _connected (obj s) = false ->
                            _connected (obj s') = false)) with (cs := cs) (t := t);
      auto.
    intros c s0 s2 t0 Hc. apply negb_true_iff in Hc.
    now apply stays_disconnected. }
  unfold isConnected, bind, ret, this. cbn. now rewrite Hend.
Qed.

(** *** Callbacks and events *)

Lemma attempt_invokes_nothing old cfg created result :
  count is_invoke_connect (attempt_obs old cfg created result) = 0%nat
  /\ count is_invoke_message (attempt_obs old cfg created result) = 0%nat
  /\ count is_delay (attempt_obs old cfg created result) = 0%nat.
Proof. unfold attempt_obs, count. now destruct old, created. Qed.

Lemma report_invokes_nothing (c : MqttClient) :
  count is_invoke_connect (report c) = 0%nat
  /\ count is_invoke_message (report c) = 0%nat
  /\ count is_delay (report c) = 0%nat.
Proof. unfold report, count. now destruct (_disconnectCallback c). Qed.

Lemma call_invocations c s s' t :
  registers_callback c = false ->
  call c s = Done tt s' t ->
  _connectCallback (obj s') = _connectCallback (obj s)
  /\ _messageCallback (obj s') = _messageCallback (obj s)
  /\ count is_invoke_connect t
     = tally (is_connected_event c && is_set (_connectCallback (obj s)))
  /\ count is_invoke_message t
     = tally (is_data_event c && is_set (_messageCallback (obj s))).
Proof.
  intros Hreg H.
  destruct c; try discriminate;
    try (destruct s as [c0 w0]; destruct c0; open_call H; settle; cbn;
         auto; fail).
  - destruct clientId as [id|]; [|discriminate].
    change (discard (connect (Some id)) s = Done tt s' t) in H.
    unfold discard, bind in H.
    destruct (Text.is_empty id) eqn:Hid.
    + rewrite (connect_refused id s Hid) in H. cbn in H. inversion H; subst.
      destruct s as [[]]; cbn; auto.
    + destruct (connect_detail id s Hid) as (created & result & w & Hd).
      cbv zeta in Hd.
      destruct Hd as [[_ Hd] | [(_ & _ & Hd) | (_ & _ & created' & result' & w' & Hd)]];
        rewrite Hd in H; cbn in H; inversion H; subst; clear H;
        rewrite app_nil_r, ?count_app;
        repeat match goal with
               | |- context [attempt_obs ?o ?c ?r ?x] =>
                   destruct (attempt_invokes_nothing o c r x) as (-> & -> & _)
               end;
        try destruct (attempt_ok created' result');
        destruct s as [[]]; cbn; auto.
  - unfold call in H. destruct event_id;
      try (destruct s as [c0 w0]; destruct c0;
           unfold mqtt_event_handler, onConnectedInternal, onDataInternal,
             invoke, emit, bind, ret, assign, this, undefined in H;
           cbn in H; settle; cbn; auto; fail).
    change (onDisconnectedInternal s = Done tt s' t) in H.
    destruct (disconnect_detail s) as [[_ Hrun] | (_ & created & result & w & Hrun)];
      cbv zeta in Hrun; rewrite Hrun in H; inversion H; subst; clear H.
    + destruct (report_invokes_nothing (obj s)) as (-> & -> & _).
      destruct s as [[]]; cbn; auto.
    + change (count ?p (Delay 1000 :: ?x)) with (count p x).
      rewrite !count_app.
      destruct (attempt_invokes_nothing (_client (obj s))
                  (attempt_cfg (set_connected false (obj s))
                     MQTT_PROTOCOL_V_3_1_1) created result) as (-> & -> & _).
      destruct (attempt_ok created result).
      * destruct s as [[]]; cbn; auto.
      * destruct (report_invokes_nothing (obj s)) as (-> & -> & _).
        destruct s as [[]]; cbn; auto.
Qed.

(** X7.  As long as the application does not register other callbacks,
    the connect callback is invoked once per connected event and the
    message callback once per data event, and by nothing else: not by
    [connect], not by a fallback attempt, not by any other call or event.
    Without a registered callback nothing is invoked. *)
Theorem callbacks_follow_events cs s s' t :
  none_of registers_callback cs = true ->
  calls cs s = Done tt s' t ->
  count is_invoke_connect t
  = (if is_set (_connectCallback (obj s))
     then occurrences is_connected_event cs else 0%nat)
  /\ count is_invoke_message t
     = (if is_set (_messageCallback (obj s))
        then occurrences is_data_event cs else 0%nat).
Proof.
  revert s t. induction cs as [|c cs IH]; intros s t Hcs H.
  - apply calls_nil in H as [_ ->].
    now destruct (is_set (_connectCallback _)), (is_set (_messageCallback _)).
  - apply calls_cons in H as (s1 & t1 & t2 & H1 & H2 & ->).
    cbn in Hcs. apply andb_true_iff in Hcs as [Hc Hcs].
    apply negb_true_iff in Hc.
    destruct (call_invocations _ _ _ _ Hc H1) as (Hcc & Hmc & Hic & Him).
    destruct (IH _ _ Hcs H2) as [IHc IHm].
    rewrite !count_app, Hic, Him, IHc, IHm, Hcc, Hmc.
    unfold occurrences. cbn [filter].
    destruct (is_connected_event c), (is_data_event c),
      (is_set (_connectCallback (obj s))), (is_set (_messageCallback (obj s)));
      cbn; auto.
Qed.

(** *** Received messages and their buffers *)

Lemma zeroed_length n : List.length (zeroed n) = n.
Proof. apply repeat_length. Qed.

Lemma copied_length (bytes : list byte) size :
  (List.length bytes <= size)%nat ->
  List.length (bytes ++ zeroed (size - List.length bytes)) = size.
Proof. intros H. rewrite length_app, zeroed_length. lia. Qed.

Lemma copied_terminated (bytes : list byte) size :
  (List.length bytes < S size)%nat ->
  nth size (bytes ++ zeroed (S size - List.length bytes)) x00 = x00.
Proof.
  intros H. rewrite app_nth2 by lia. unfold zeroed.
  apply nth_repeat.
Qed.

(** X8.  Whatever the size of a received message, the message callback
    is handed a topic buffer of exactly 256 bytes whose last byte is zero
    and a payload buffer of exactly 512 bytes, together with the payload
    length the engine reported.  A topic of 256 bytes or more is replaced
    by an all-zero buffer, and so is a payload of 512 bytes or more, whose
    reported length then exceeds the buffer.  With no message callback
    registered the event does nothing. *)
Theorem message_buffers_are_bounded event s :
  topic_len event = Z.of_nat (List.length (topic event)) ->
  data_len event = Z.of_nat (List.length (data event)) ->
  topic_len event < 2 ^ 31 -> data_len event < 2 ^ 31 ->
  exists topic_buffer data_buffer,
    mqtt_event_handler MQTT_EVENT_DATA event s
    = Done tt s
        (match _messageCallback (obj s) with
         | Some cb =>
             [InvokeMessage cb topic_buffer data_buffer (data_len event)]
         | None => []
         end)
    /\ List.length topic_buffer = 256%nat
    /\ nth 255 topic_buffer x00 = x00
    /\ List.length data_buffer = 512%nat
    /\ (256 <= topic_len event -> topic_buffer = zeroed 256)
    /\ (512 <= data_len event -> data_buffer = zeroed 512).
Proof.
  intros Ht Hd Htr Hdr.
  unfold mqtt_event_handler, onDataInternal, invoke, emit, bind, this, ret.
  rewrite !to_size_t_small by lia.
  do 2 eexists. split.
  - destruct (_messageCallback (obj s)); reflexivity.
  - destruct (topic_len event <? 256) eqn:Hts;
      destruct (data_len event <? 512) eqn:Hds;
      rewrite ?Z.ltb_lt, ?Z.ltb_ge in Hts, Hds;
      rewrite ?Ht, ?Hd, ?memcpy_zeroed;
      repeat split;
      try (intros; lia);
      try apply zeroed_length;
      try (apply copied_length; lia);
      try (apply (copied_terminated _ 255); lia);
      try (intros; reflexivity);
      unfold zeroed; apply nth_repeat.
Qed.

(** *** Configuration calls *)

(** X9.  Null arguments.  [setPath], [setCACert], [setClientCert] and
    [setClientKey] ignore a null argument, and [setCredentials] stores
    each of its arguments only when it is not null, so a stored value is
    kept.  [setServer] and [begin] read through the pointer at once: on a
    null argument they are undefined. *)
Theorem null_arguments s :
  setPath None s = Done tt s []
  /\ setCACert None s = Done tt s []
  /\ setClientCert None s = Done tt s []
  /\ setClientKey None s = Done tt s []
  /\ setCredentials None None s = Done tt s []
  /\ (forall user,
         setCredentials (Some user) None s
         = Done tt (mkSys (set_username (Some user) (obj s)) (world s)) [])
  /\ (forall pass,
         setCredentials None (Some pass) s
         = Done tt (mkSys (set_password (Some pass) (obj s)) (world s)) [])
  /\ (forall port, setServer None port s = Undefined)
  /\ begin None s = Undefined.
Proof. destruct s. repeat split. Qed.

(** X10.  A locator and [setServer] override each other's host and port,
    but [setServer] leaves the transport chosen by the locator in place:
    after [begin] with an accepted locator and then [setServer], the host
    and port are those of [setServer] while WebSocket and security follow
    the locator; in the other order host and port are the locator's. *)
Theorem begin_and_setServer_override uri parts h p s :
  UriUtils.parseMqttUri uri = Some parts ->
  (exists s1,
      (begin (Some uri) ;; setServer (Some h) p) s = Done tt s1 []
      /\ _host (obj s1) = Some h /\ _port (obj s1) = p
      /\ _useWebSocket (obj s1) = UriUtils.isWebSocket parts
      /\ _secure (obj s1) = UriUtils.isSecure parts)
  /\ (exists s2,
         (setServer (Some h) p ;; begin (Some uri)) s = Done tt s2 []
         /\ _host (obj s2) = Some (UriUtils.host parts)
         /\ _port (obj s2) = UriUtils.port parts
         /\ _useWebSocket (obj s2) = UriUtils.isWebSocket parts
         /\ _secure (obj s2) = UriUtils.isSecure parts).
Proof.
  intros Hp.
  unfold begin, parseUriComponents, setServer, deref, when, bind, ret,
    assign, this. cbn. rewrite Hp. cbn.
  split; destruct (UriUtils.isWebSocket parts) eqn:Hws; cbn;
    eexists; (split; [reflexivity|]); cbn; auto.
Qed.

(** *** Attempts outside [connect] *)



(** *** Stored text *)

Lemma still_set_refl (c : MqttClient) : still_set (stored c) (stored c) = true.
Proof. unfold still_set, stored. cbn. now rewrite !implb_same. Qed.

Lemma still_set_trans (a b c : MqttClient) :
  still_set (stored a) (stored b) = true ->
  still_set (stored b) (stored c) = true ->
  still_set (stored a) (stored c) = true.
Proof.
  unfold still_set, stored. cbn. rewrite !andb_true_iff.
  intros (A1 & A2 & A3 & A4 & A5 & A6 & A7 & A8 & _)
         (B1 & B2 & B3 & B4 & B5 & B6 & B7 & B8 & _).
  repeat split;
    match goal with
    | |- implb ?x ?z = true =>
        match goal with
        | H1 : implb x ?y = true, H2 : implb ?y z = true |- _ =>
            destruct x, y, z; auto
        end
    end.
Qed.

Lemma call_keeps_stored c s s' t :
  call c s = Done tt s' t ->
  still_set (stored (obj s)) (stored (obj s')) = true.
Proof.
  intros H.
  destruct c;
    try (destruct s as [c0 w0]; destruct c0; open_call H; settle;
         unfold still_set, stored; cbn;
         rewrite ?implb_same, ?implb_true_r;
         first [reflexivity | cbn in *; congruence]).
  - destruct clientId as [id|]; [|discriminate].
    change (discard (connect (Some id)) s = Done tt s' t) in H.
    unfold discard, bind in H.
    destruct (Text.is_empty id) eqn:Hid.
    + rewrite (connect_refused id s Hid) in H. cbn in H. inversion H; subst.
      destruct s as [[]]. unfold still_set, stored. cbn.
      now rewrite ?implb_same, ?implb_true_r.
    + destruct (connect_detail id s Hid) as (created & result & w & Hd).
      cbv zeta in Hd.
      destruct Hd as [[_ Hd] | [(_ & _ & Hd) | (_ & _ & created' & result' & w' & Hd)]];
        rewrite Hd in H; cbn in H; inversion H; subst; clear H;
        try destruct (attempt_ok created' result');
        destruct s as [[]]; unfold still_set, stored; cbn;
        now rewrite ?implb_same, ?implb_true_r.
  - unfold call in H. destruct event_id;
      try (destruct s as [c0 w0]; destruct c0;
           unfold mqtt_event_handler, onConnectedInternal, onDataInternal,
             invoke, emit, bind, ret, assign, this, undefined in H;
           cbn in H; settle; unfold still_set, stored; cbn;
           rewrite ?implb_same, ?implb_true_r; reflexivity).
    change (onDisconnectedInternal s = Done tt s' t) in H.
    destruct (disconnect_detail s) as [[_ Hrun] | (_ & created & result & w & Hrun)];
      cbv zeta in Hrun; rewrite Hrun in H; inversion H; subst; clear H;
      try destruct (attempt_ok created result);
      destruct s as [[]]; unfold still_set, stored; cbn;
      now rewrite ?implb_same, ?implb_true_r.
Qed.

(** X12.  Stored text cannot be taken back: once a host, path, user
    name, password, client identifier, CA certificate, client certificate
    or client key is set, no call and no event unsets it (a later call can
    only replace it). *)
Theorem stored_text_is_never_unset cs s s' t :
  calls cs s = Done tt s' t ->
  still_set (stored (obj s)) (stored (obj s')) = true.
Proof.
  apply (calls_induction (fun _ => true)
           (fun s _ s' => still_set (stored (obj s)) (stored (obj s')) = true)).
  - intros s0. apply still_set_refl.
  - intros s0 _ s1 _ s2. apply still_set_trans.
  - intros c s0 s1 t0 _. apply call_keeps_stored.
  - apply any_call.
Qed.

End WithEngine.

(** *** The statements on a concrete session *)

Import Scripted.

Lemma engine_used_on_current_client_witness :
  calls session session_start = Done tt session_end session_trace
  /\ disciplined (_client (obj session_start)) session_trace = true
  /\ current_after (_client (obj session_start)) session_trace
     = _client (obj session_end).
Proof.
  split; [vm_compute; reflexivity|].
  apply (@engine_used_on_current_client scripted session session_start
           session_end session_trace).
  vm_compute. reflexivity.
Defined.

Lemma destructor_releases_engine_client_witness :
  getInstance None = Some MqttClient_new
  /\ exists w' t',
       MqttClient_delete session_end = Done tt (mkSys (obj session_end) w') t'
       /\ disciplined None (session_trace ++ t') = true
       /\ current_after None (session_trace ++ t') = None.
Proof.
  split; [reflexivity|].
  apply (@destructor_releases_engine_client scripted MqttClient_new session
           (mkScript 0 [] [1; ESP_OK; ESP_OK; 1]) session_end session_trace);
    [reflexivity | vm_compute; reflexivity].
Defined.

Lemma engine_address_is_uri_or_host_witness :
  calls session session_start = Done tt session_end session_trace
  /\ forallb address_exclusive (inits session_trace) = true.
Proof.
  split; [vm_compute; reflexivity|].
  apply (@engine_address_is_uri_or_host scripted session session_start
           session_end session_trace).
  vm_compute. reflexivity.
Defined.

Lemma connect_attempts_differ_in_protocol_only_witness :
  exists ok s' t,
    connect (Some "dev") configured = Done ok s' t
    /\ exists cfg,
         session_protocol_ver cfg = MQTT_PROTOCOL_V_5
         /\ credentials_client_id cfg = Some "dev"
         /\ (inits t = [cfg]
             \/ _enableFallback (obj configured) = true
                /\ inits t = [cfg; with_protocol MQTT_PROTOCOL_V_3_1_1 cfg])
         /\ count is_delay t = 0%nat.
Proof.
  do 3 eexists. split; [vm_compute; reflexivity|].
  eapply (@connect_attempts_differ_in_protocol_only scripted "dev" configured);
    [reflexivity | vm_compute; reflexivity].
Defined.

Lemma connect_result_reflects_last_start_witness :
  exists s' t,
    connect (Some "dev") configured = Done true s' t
    /\ exists before cfg h,
         t = (before ++ [CallInit cfg (Some h); CallRegisterEvent h;
                         CallStart h ESP_OK])%list
         /\ _client (obj s') = Some h
         /\ _usingFallback (obj s')
            = (session_protocol_ver cfg =? MQTT_PROTOCOL_V_3_1_1).
Proof.
  do 2 eexists. split; [vm_compute; reflexivity|].
  eapply (proj1 (@connect_result_reflects_last_start scripted "dev"
                   configured true _ _ _));
    reflexivity.
  Unshelve. vm_compute. reflexivity.
Defined.

Lemma disconnected_until_next_connected_event_witness :
  exists s1 t1 s' t,
    mqtt_event_handler MQTT_EVENT_DISCONNECTED transport_error established
    = Done tt s1 t1
    /\ calls aftermath s1 = Done tt s' t
    /\ isConnected s' = Done false s' [].
Proof.
  do 4 eexists. split; [vm_compute; reflexivity|].
  split; [vm_compute; reflexivity|].
  eapply (@disconnected_until_next_connected_event scripted transport_error
            established _ _ aftermath);
    [vm_compute; reflexivity | reflexivity | vm_compute; reflexivity].
Defined.

Lemma callbacks_follow_events_witness :
  calls (skipn 5 session) (after setup session_start)
  = Done tt session_end session_trace
  /\ count is_invoke_connect session_trace = 2%nat
  /\ count is_invoke_message session_trace = 2%nat.
Proof.
  split; [vm_compute; reflexivity|].
  exact (@callbacks_follow_events scripted (skipn 5 session)
           (after setup session_start) session_end session_trace
           eq_refl ltac:(vm_compute; reflexivity)).
Defined.

Lemma message_buffers_are_bounded_witness :
  exists topic_buffer data_buffer,
    mqtt_event_handler MQTT_EVENT_DATA (message 600) pending
    = Done tt pending [InvokeMessage 9%nat topic_buffer data_buffer 600]
    /\ List.length topic_buffer = 256%nat
    /\ nth 255 topic_buffer x00 = x00
    /\ List.length data_buffer = 512%nat
    /\ data_buffer = zeroed 512.
Proof.
  destruct (@message_buffers_are_bounded scripted (message 600) pending
              eq_refl ltac:(vm_compute; reflexivity)
              eq_refl eq_refl)
    as (tb & db & Hrun & Htl & Htz & Hdl & _ & Hz).
  exists tb, db. repeat split; try assumption.
  apply Hz. vm_compute. discriminate.
Defined.

Lemma begin_and_setServer_override_witness :
  UriUtils.parseMqttUri "wss://broker.example.com:9001/mqtt"
  = Some (UriUtils.mkUriParts "wss" "broker.example.com" 9001 "/mqtt")
  /\ exists s1,
       (begin (Some "wss://broker.example.com:9001/mqtt")
        ;; setServer (Some "backup.example.com") 8884) (fresh [] [])
       = Done tt s1 []
       /\ _host (obj s1) = Some "backup.example.com"
       /\ _port (obj s1) = 8884
       /\ _useWebSocket (obj s1) = true
       /\ _secure (obj s1) = true.
Proof.
  split; [reflexivity|].
  exact (proj1 (@begin_and_setServer_override scripted
                  "wss://broker.example.com:9001/mqtt"
                  (UriUtils.mkUriParts "wss" "broker.example.com" 9001 "/mqtt")
                  "backup.example.com" 8884 (fresh [] []) eq_refl)).
Defined.


Lemma stored_text_is_never_unset_witness :
  calls session session_start = Done tt session_end session_trace
  /\ still_set (stored (obj session_start)) (stored (obj session_end)) = true.
Proof.
  split; [vm_compute; reflexivity|].
  apply (@stored_text_is_never_unset scripted session session_start
           session_end session_trace).
  vm_compute. reflexivity.
Defined.

End UsageFacts.
